(** * Pothos::BufferChunk: constructors, reflection surface, binary serialization

    Shallow embedding of
      - pothos-library/lib/Framework/BufferChunk.cpp
      - pothos-library/include/Pothos/Exception.hpp (the class taxonomy)

    Sizes and addresses are [size_t] values, kept as [Z] with the wrap-around
    of the casts written out.  The heap is explicit state: byte contents,
    the table of reference-counted allocations, the table of pooled
    (managed) buffers and the free lists of the pools that are still alive.
    Code that can throw runs in a small state-and-exception monad. *)

From Stdlib Require Import ZArith List Lia.
From Stdlib.Strings Require Import Byte.
From stdpp Require Import base option gmap strings list.
Import ListNotations.
Local Open Scope Z_scope.

(** ** Machine integers *)

(** [size_t] of the 64-bit builds (LP64 and LLP64 alike). *)
Definition size_t_bits : Z := 64.
Definition size_t_modulus : Z := 2 ^ size_t_bits.
Definition UInt32_modulus : Z := 2 ^ 32.

(** [Poco::UInt32(x)] for a [size_t] x: the narrowing cast keeps the low 32 bits. *)
Definition to_UInt32 (x : Z) : Z := x mod UInt32_modulus.

(** [size_t(x)] for a [Poco::UInt32] x: the widening cast. *)
Definition to_size_t (x : Z) : Z := x mod size_t_modulus.

Definition is_UInt32 (x : Z) : Prop := 0 <= x < UInt32_modulus.

(** ** Exception classes (Exception.hpp, "Standard exception classes") *)

Inductive ExceptionClass : Set :=
  | Exception
  | LogicException | AssertionViolationException | NullPointerException
  | NullValueException | BugcheckException | InvalidArgumentException
  | NotImplementedException | RangeException | IllegalStateException
  | InvalidAccessException | SignalException | UnhandledException
  | RuntimeException | NotFoundException | ExistsException | TimeoutException
  | SystemException | RegularExpressionException | LibraryLoadException
  | LibraryAlreadyLoadedException | NoThreadAvailableException
  | PropertyNotSupportedException | PoolOverflowException
  | NoPermissionException | OutOfMemoryException | DataException
  | DataFormatException | SyntaxException | CircularReferenceException
  | PathSyntaxException | IOException | ProtocolException | FileException
  | FileExistsException | FileNotFoundException | PathNotFoundException
  | FileReadOnlyException | FileAccessDeniedException | CreateFileException
  | OpenFileException | WriteFileException | ReadFileException
  | UnknownURISchemeException | ApplicationException | BadCastException.

#[global] Instance ExceptionClass_eq_dec : EqDecision ExceptionClass.
Proof. solve_decision. Defined.

(** The BASE argument of each POTHOS_DECLARE_EXCEPTION line; the root
    [Exception] derives from std::exception and has no Pothos base. *)
Definition base_class (c : ExceptionClass) : option ExceptionClass :=
  match c with
  | Exception => None
  | LogicException | RuntimeException | ApplicationException => Some Exception
  | AssertionViolationException | NullPointerException | NullValueException
  | BugcheckException | InvalidArgumentException | NotImplementedException
  | RangeException | IllegalStateException | InvalidAccessException
  | SignalException | UnhandledException => Some LogicException
  | NotFoundException | ExistsException | TimeoutException | SystemException
  | RegularExpressionException | LibraryLoadException
  | LibraryAlreadyLoadedException | NoThreadAvailableException
  | PropertyNotSupportedException | PoolOverflowException
  | NoPermissionException | OutOfMemoryException | DataException
  | IOException | UnknownURISchemeException | BadCastException =>
      Some RuntimeException
  | DataFormatException | SyntaxException | CircularReferenceException =>
      Some DataException
  | PathSyntaxException => Some SyntaxException
  | ProtocolException | FileException => Some IOException
  | FileExistsException | FileNotFoundException | PathNotFoundException
  | FileReadOnlyException | FileAccessDeniedException | CreateFileException
  | OpenFileException | WriteFileException | ReadFileException =>
      Some FileException
  end.

(** Is [c] the class [ancestor] or derived from it: what a handler for
    [ancestor] catches.  The hierarchy is four levels deep. *)
Definition same_class (c d : ExceptionClass) : bool :=
  if decide (c = d) then true else false.
Fixpoint is_a_within (depth : nat) (c ancestor : ExceptionClass) : bool :=
  same_class c ancestor
  || match depth, base_class c with
     | S depth', Some b => is_a_within depth' b ancestor
     | _, _ => false
     end.
Definition is_a (c ancestor : ExceptionClass) : bool := is_a_within 4 c ancestor.

(** ** A state-and-exception monad

    A computation started in a state either returns a value or throws; the
    state is kept in both cases, as a C++ exception leaves the heap as it
    was at the throw. *)

Inductive outcome (A : Type) : Type :=
  | Returned (a : A)
  | Thrown (e : ExceptionClass).
Arguments Returned {A} a.
Arguments Thrown {A} e.

Definition Exec (S A : Type) : Type := S -> outcome A * S.

Definition ret {S A} (a : A) : Exec S A := fun s => (Returned a, s).
Definition throw {S A} (e : ExceptionClass) : Exec S A := fun s => (Thrown e, s).
Definition bind {S A B} (c : Exec S A) (k : A -> Exec S B) : Exec S B :=
  fun s => match c s with
           | (Returned a, s') => k a s'
           | (Thrown e, s') => (Thrown e, s')
           end.
Definition get {S} : Exec S S := fun s => (Returned s, s).
Definition modify {S} (f : S -> S) : Exec S unit := fun s => (Returned tt, f s).

Notation "'let*' x ':=' c 'in' k" := (bind c (fun x => k))
  (at level 10, x name, c at level 100, k at level 200).

(** ** Bytes and memory *)

Definition byte_of_Z (z : Z) : byte :=
  match Byte.of_N (Z.to_N (z mod 256)) with
  | Some b => b
  | None => x00
  end.
Definition Z_of_byte (b : byte) : Z := Z.of_N (Byte.to_N b).

(** Flat byte-addressed memory contents. *)
Definition memory : Type := Z -> byte.

(** The [n] bytes at [p], [p+1], ... *)
Definition mem_read (m : memory) (p : Z) (n : nat) : list byte :=
  map (fun i : nat => m (p + Z.of_nat i)) (seq 0 n).

(** Store [bs] at [p], [p+1], ...; other addresses keep their contents. *)
Definition mem_write (m : memory) (p : Z) (bs : list byte) : memory :=
  fun a =>
    if (p <=? a) && (a <? p + Z.of_nat (List.length bs))
    then nth (Z.to_nat (a - p)) bs (m a)
    else m a.

(** ** The heap *)

(** One reference-counted allocation: where it lies, how many bytes it
    has, how many handles own it.  The entry disappears from the table when
    the last owner lets go: that is the deallocation. *)
Record Container : Type := mkContainer {
  c_base : Z;
  c_size : Z;
  c_refs : nat
}.

Module SharedBuffer.
(** Modelled from the spec: the class SharedBuffer of SharedBuffer.hpp, the
    spec's RawBuffer: "a starting address and a byte length", "shared with
    reference counting".  [container] names the allocation the handle
    co-owns; a handle without one owns nothing. *)
Record t : Type := mk {
  address : Z;
  length : Z;
  container : option nat
}.
(** Modelled from the spec: [getAddress()] of SharedBuffer.hpp, the "pure
    accessor" [address()]. *)
Definition getAddress (b : t) : Z := address b.
(** Modelled from the spec: [getLength()] of SharedBuffer.hpp, the "pure
    accessor" [length()]. *)
Definition getLength (b : t) : Z := length b.
(** Modelled from the spec: the default constructor [SharedBuffer()] of
    SharedBuffer.cpp: "if address == 0 then the buffer is the canonical
    empty/null value and length == 0". *)
Definition null : t := mk 0 0 None.
End SharedBuffer.

(** Modelled from the spec: the implementation record behind the managed
    buffer handles of ManagedBuffer.hpp, the spec's PooledBuffer: "the
    RawBuffer it wraps, a non-owning (weak) back-reference to the issuing
    Pool", shared by counted handles. *)
Record ManagedImpl : Type := mkManagedImpl {
  mi_buffer : SharedBuffer.t;
  mi_refs : nat;
  mi_pool : nat
}.

Record Heap : Type := mkHeap {
  bytes : memory;
  containers : gmap nat Container;
  next_container : nat;
  managed : gmap nat ManagedImpl;
  (** free lists of the pools that are alive; a torn-down pool has no entry *)
  pools : gmap nat (list SharedBuffer.t);
  (** sizes asked of the platform allocator, newest first *)
  requests : list Z
}.

Definition with_bytes (h : Heap) (m : memory) : Heap :=
  mkHeap m (containers h) (next_container h) (managed h) (pools h) (requests h).
Definition with_containers (h : Heap) (cs : gmap nat Container) : Heap :=
  mkHeap (bytes h) cs (next_container h) (managed h) (pools h) (requests h).
Definition with_managed (h : Heap) (ms : gmap nat ManagedImpl) : Heap :=
  mkHeap (bytes h) (containers h) (next_container h) ms (pools h) (requests h).
Definition with_pools (h : Heap) (ps : gmap nat (list SharedBuffer.t)) : Heap :=
  mkHeap (bytes h) (containers h) (next_container h) (managed h) ps (requests h).

(** The payload a chunk or buffer at [p] of [n] bytes denotes in [h]. *)
Definition payload (h : Heap) (p n : Z) : list byte :=
  mem_read (bytes h) p (Z.to_nat n).

(** The platform allocator is a parameter: given the heap and a size it
    picks the start of the new region, or cannot satisfy the request.
    No strategy is assumed. *)
Definition Allocator : Type := Heap -> Z -> option Z.

Module SharedBufferOps.
Import SharedBuffer.

(** Modelled from the spec: [SharedBuffer::make(numBytes)] of
    SharedBuffer.cpp, the spec's [allocate(numBytes) -> RawBuffer]:
    "requests numBytes of memory.  Fails with an out-of-memory condition
    if the platform allocator cannot satisfy the request".  The request
    is logged whether or not it succeeds. *)
Definition make (place : Allocator) (numBytes : Z) : Exec Heap t :=
  fun h =>
    let h1 := mkHeap (bytes h) (containers h) (next_container h)
                     (managed h) (pools h) (numBytes :: requests h) in
    match place h numBytes with
    | None => throw OutOfMemoryException h1
    | Some a =>
        let id := next_container h in
        (Returned (mk a numBytes (Some id)),
         mkHeap (bytes h) (<[id := mkContainer a numBytes 1]> (containers h))
                (S id) (managed h) (pools h) (numBytes :: requests h))
    end.

(** Modelled from the spec: the copy constructor of SharedBuffer,
    "copies share ownership (reference count increments), never
    duplicate payload bytes". *)
Definition copy (b : t) : Exec Heap t :=
  fun h =>
    match container b with
    | None => (Returned b, h)
    | Some id =>
        (Returned b,
         with_containers h
           (alter (fun c => mkContainer (c_base c) (c_size c) (S (c_refs c)))
                  id (containers h)))
    end.

(** Modelled from the spec: the destructor of SharedBuffer, "when the
    last shared owner disappears, memory is returned to the system
    allocator exactly once". *)
Definition release (b : t) : Exec Heap unit :=
  fun h =>
    match container b with
    | None => (Returned tt, h)
    | Some id =>
        match containers h !! id with
        | None => (Returned tt, h)
        | Some c =>
            match c_refs c with
            | O | S O =>
                (Returned tt, with_containers h (delete id (containers h)))
            | S n =>
                (Returned tt,
                 with_containers h
                   (<[id := mkContainer (c_base c) (c_size c) n]> (containers h)))
            end
        end
    end.
End SharedBufferOps.

Module ManagedBuffer.
(** Modelled from the spec: the class ManagedBuffer of ManagedBuffer.hpp,
    the spec's PooledBuffer, as a handle: null, or naming the
    implementation record it shares with its copies. *)
Record t : Type := mk { impl : option nat }.
(** Modelled from the spec: the default constructor [ManagedBuffer()] of
    ManagedBuffer.cpp, the handle that names nothing. *)
Definition null : t := mk None.

(** Modelled from the spec: [getBuffer()] of ManagedBuffer.hpp, "the
    RawBuffer it wraps", by const reference (no count changes).  The
    source calls it on a live handle; a handle with no implementation
    record reads as the null buffer here. *)
Definition getBuffer (b : t) (h : Heap) : SharedBuffer.t :=
  match impl b with
  | None => SharedBuffer.null
  | Some i =>
      match managed h !! i with
      | None => SharedBuffer.null
      | Some r => mi_buffer r
      end
  end.

(** Modelled from the spec: the copy constructor of ManagedBuffer: one
    more shared owner of the implementation record ("copies share
    ownership (reference count increments)"). *)
Definition copy (b : t) : Exec Heap t :=
  fun h =>
    match impl b with
    | None => (Returned b, h)
    | Some i =>
        (Returned b,
         with_managed h
           (alter (fun r => mkManagedImpl (mi_buffer r) (S (mi_refs r)) (mi_pool r))
                  i (managed h)))
    end.

(** Modelled from the spec: the destructor of ManagedBuffer, not under
    src: "on release of the last shared owner, control
    transfers to the pool's return operation rather than to direct
    deallocation -- memory is retained for reuse.  If the pool no longer
    exists (torn down), release falls back to direct deallocation". *)
Definition release (b : t) : Exec Heap unit :=
  fun h =>
    match impl b with
    | None => (Returned tt, h)
    | Some i =>
        match managed h !! i with
        | None => (Returned tt, h)
        | Some r =>
            match mi_refs r with
            | O | S O =>
                let h1 := with_managed h (delete i (managed h)) in
                match pools h !! mi_pool r with
                | Some free =>
                    (Returned tt,
                     with_pools h1 (<[mi_pool r := mi_buffer r :: free]> (pools h)))
                | None => SharedBufferOps.release (mi_buffer r) h1
                end
            | S n =>
                (Returned tt,
                 with_managed h
                   (<[i := mkManagedImpl (mi_buffer r) n (mi_pool r)]> (managed h)))
            end
        end
    end.
End ManagedBuffer.

(** ** BufferChunk.cpp: the chunk and its four constructors *)

Module BufferChunk.
Record t : Type := mk {
  address : Z;
  length : Z;
  _buffer : SharedBuffer.t;
  _managedBuffer : ManagedBuffer.t
}.

(** [BufferChunk(void)]: address(0), length(0); the two handles are
    default-constructed. *)
Definition ctor : t := mk 0 0 SharedBuffer.null ManagedBuffer.null.

(** [BufferChunk(const size_t numBytes)]: address(0), length(numBytes),
    _buffer(SharedBuffer::make(numBytes)); the body then sets
    [address = _buffer.getAddress()]. *)
Definition ctor_size (place : Allocator) (numBytes : Z) : Exec Heap t :=
  let* b := SharedBufferOps.make place numBytes in
  let this := mk 0 numBytes b ManagedBuffer.null in
  ret (mk (SharedBuffer.getAddress (_buffer this)) (length this)
          (_buffer this) (_managedBuffer this)).

(** [BufferChunk(const SharedBuffer &buffer)]: address(buffer.getAddress()),
    length(buffer.getLength()), _buffer(buffer). *)
Definition ctor_shared (buffer : SharedBuffer.t) : Exec Heap t :=
  let a := SharedBuffer.getAddress buffer in
  let l := SharedBuffer.getLength buffer in
  let* b := SharedBufferOps.copy buffer in
  ret (mk a l b ManagedBuffer.null).

(** [BufferChunk(const ManagedBuffer &buffer)]:
    address(buffer.getBuffer().getAddress()),
    length(buffer.getBuffer().getLength()),
    _buffer(buffer.getBuffer()), _managedBuffer(buffer). *)
Definition ctor_managed (buffer : ManagedBuffer.t) : Exec Heap t :=
  let* h := get in
  let a := SharedBuffer.getAddress (ManagedBuffer.getBuffer buffer h) in
  let l := SharedBuffer.getLength (ManagedBuffer.getBuffer buffer h) in
  let* b := SharedBufferOps.copy (ManagedBuffer.getBuffer buffer h) in
  let* m := ManagedBuffer.copy buffer in
  ret (mk a l b m).

(** Modelled from the spec: [null()] of BufferChunk.hpp, the "dedicated
    isNull predicate (address == 0)". *)
Definition null (c : t) : bool := address c =? 0.

(** Modelled from the spec: [as<void *>()] of BufferChunk.hpp, "the
    chunk's address reinterpreted as a pointer-like handle". *)
Definition as_ptr (c : t) : Z := address c.

(** Modelled from the spec: the implicit destructor.  Members go in
    reverse order of declaration: the managed handle, then the shared
    one; each follows its own release rule. *)
Definition destroy (c : t) : Exec Heap unit :=
  let* _ := ManagedBuffer.release (_managedBuffer c) in
  SharedBufferOps.release (_buffer c).

(** Modelled from the spec: whether the chunk's "internal ownership slot"
    holds a buffer.  The pooled buffer wraps the shared one, so [_buffer]
    is the owned region in both owning variants. *)
Definition owns (c : t) : bool :=
  match SharedBuffer.container (_buffer c) with
  | Some _ => true
  | None => false
  end.
End BufferChunk.

(** ** The archive *)

(** The binary archive of Pothos/serialization is not under src; the spec
    gives it "only as the wire contract".  An output archive is the bytes
    written so far, an input archive the bytes not yet consumed. *)
Module Archive.
(** Modelled from the spec: the archive's encoding of a bool, "one boolean
    flag byte", 0x00 for false as in the end-to-end example. *)
Definition encode_bool (b : bool) : byte := if b then x01 else x00.
(** Modelled from the spec: the archive's decoding of the flag byte. *)
Definition decode_bool (b : byte) : bool := negb (Byte.eqb b x00).

(** Modelled from the spec: the archive's encoding of a Poco::UInt32, "a
    4-byte unsigned length field (fixed-width ...)", least significant
    byte first as in the end-to-end example. *)
Definition encode_UInt32 (n : Z) : list byte :=
  [ byte_of_Z n; byte_of_Z (Z.shiftr n 8);
    byte_of_Z (Z.shiftr n 16); byte_of_Z (Z.shiftr n 24) ].
(** Modelled from the spec: the archive's decoding of those four bytes. *)
Definition decode_UInt32 (b0 b1 b2 b3 : byte) : Z :=
  Z_of_byte b0 + Z.shiftl (Z_of_byte b1) 8
  + Z.shiftl (Z_of_byte b2) 16 + Z.shiftl (Z_of_byte b3) 24.

(** Modelled from the spec: [ar << b] for a bool of the output archive. *)
Definition write_bool (b : bool) : Exec (list byte) unit :=
  modify (fun out => out ++ [encode_bool b]).
(** Modelled from the spec: [ar << n] for a Poco::UInt32 of the output
    archive. *)
Definition write_UInt32 (n : Z) : Exec (list byte) unit :=
  modify (fun out => out ++ encode_UInt32 n).
(** Modelled from the spec: [ar << binary_object(p, n)] of the output
    archive: "exactly length raw payload bytes, copied verbatim from the
    chunk's memory". *)
Definition write_binary (h : Heap) (p n : Z) : Exec (list byte) unit :=
  modify (fun out => out ++ payload h p n).

(** Modelled from the spec: [ar >> b] for a bool of the input archive; a
    stream that has ended is "a data-format error". *)
Definition read_bool : Exec (list byte) bool :=
  fun inp =>
    match inp with
    | b :: rest => (Returned (decode_bool b), rest)
    | [] => throw DataFormatException []
    end.
(** Modelled from the spec: [ar >> n] for a Poco::UInt32 of the input
    archive. *)
Definition read_UInt32 : Exec (list byte) Z :=
  fun inp =>
    match inp with
    | b0 :: b1 :: b2 :: b3 :: rest => (Returned (decode_UInt32 b0 b1 b2 b3), rest)
    | _ => throw DataFormatException []
    end.
(** Modelled from the spec: [ar >> binary_object(p, n)] of the input
    archive: "a truncated stream (fewer bytes available than the declared
    length) is a data-format error, not a silent partial read".  The
    bytes that were there have been copied when the error is raised. *)
Definition read_binary (p n : Z) : Exec (list byte * Heap) unit :=
  fun '(inp, h) =>
    let k := Z.to_nat n in
    if (k <=? List.length inp)%nat
    then (Returned tt, (drop k inp, with_bytes h (mem_write (bytes h) p (take k inp))))
    else throw DataFormatException ([], with_bytes h (mem_write (bytes h) p inp)).
End Archive.

(** ** BufferChunk.cpp: Pothos::serialization::save and load *)

Module Serialization.
(** [save(ar, t, version)].  The heap is only read. *)
Definition save (h : Heap) (t : BufferChunk.t) : Exec (list byte) unit :=
  let is_null := BufferChunk.null t in
  let* _ := Archive.write_bool is_null in
  if is_null then ret tt else
  let length := to_UInt32 (BufferChunk.length t) in
  let* _ := Archive.write_UInt32 length in
  let bo := (BufferChunk.as_ptr t, BufferChunk.length t) in
  Archive.write_binary h (fst bo) (snd bo).

(** What [load] works on: the archive, the destination [t] it received by
    reference, and the heap. *)
Record Frame : Type := mkFrame {
  ar : list byte;
  t : BufferChunk.t;
  heap : Heap
}.

Definition on_archive {A} (c : Exec (list byte) A) : Exec Frame A :=
  fun f => let '(r, inp) := c (ar f) in (r, mkFrame inp (t f) (heap f)).
Definition on_heap {A} (c : Exec Heap A) : Exec Frame A :=
  fun f => let '(r, h) := c (heap f) in (r, mkFrame (ar f) (t f) h).
Definition on_archive_and_heap {A} (c : Exec (list byte * Heap) A) : Exec Frame A :=
  fun f => let '(r, (inp, h)) := c (ar f, heap f) in (r, mkFrame inp (t f) h).

(** [t = rhs] for a temporary [rhs], the implicit assignment of
    BufferChunk: the handles [t] held are released, [t] takes over those
    of [rhs]. *)
Definition assign (rhs : BufferChunk.t) : Exec Frame unit :=
  let* old := (fun f => (Returned (t f), f)) in
  let* _ := on_heap (BufferChunk.destroy old) in
  modify (fun f => mkFrame (ar f) rhs (heap f)).

(** [load(ar, t, version)].  The initial values of the locals [is_null]
    and [length] are overwritten by the reads or never used. *)
Definition load (place : Allocator) : Exec Frame unit :=
  let* _ := assign BufferChunk.ctor in
  let* is_null := on_archive Archive.read_bool in
  if is_null : bool then ret tt else
  let* length := on_archive Archive.read_UInt32 in
  let* fresh := on_heap (BufferChunk.ctor_size place (to_size_t length)) in
  let* _ := assign fresh in
  let* bo := (fun f => (Returned (BufferChunk.as_ptr (t f), BufferChunk.length (t f)), f)) in
  on_archive_and_heap (Archive.read_binary (fst bo) (snd bo)).

(** Modelled from the spec: [serialize], the caller of [save] that
    POTHOS_OBJECT_SERIALIZE generates: the byte stream [save] produces for
    [c] on a new archive. *)
Definition serialize (h : Heap) (c : BufferChunk.t) : list byte :=
  snd (save h c []).

(** Modelled from the spec: [deserialize], the caller of [load] that
    POTHOS_OBJECT_SERIALIZE generates: it default-constructs the
    destination, loads into it and hands it out; when [load] throws, the
    destination goes out of scope with the exception. *)
Definition deserialize (place : Allocator) (stream : list byte)
  : Exec Heap BufferChunk.t :=
  fun h =>
    match load place (mkFrame stream BufferChunk.ctor h) with
    | (Returned _, f) => (Returned (t f), heap f)
    | (Thrown e, f) => (Thrown e, snd (BufferChunk.destroy (t f) (heap f)))
    end.
End Serialization.

(** ** BufferChunk.cpp: the registration with the managed-class registry *)

(** The builder Pothos::ManagedClass of Managed.hpp is not under src; the
    spec gives it through "the interface the core must expose":
    constructors by argument list, fields by name with read-only access. *)
Module ManagedClass.
(** Modelled from the spec: the argument types a registered constructor
    can take; this file registers none but [const size_t]. *)
Inductive ArgType : Set := arg_size_t.

(** Modelled from the spec: what a ManagedClass has collected: the
    constructors with their signatures, the fields with their names, the
    path it was committed under.  A field is a call on an object: it
    yields a value and the object as the call leaves it. *)
Record t : Type := mk {
  constructors : list (list ArgType * (list Z -> option (Allocator -> Exec Heap BufferChunk.t)));
  fields : list (string * (BufferChunk.t -> Z * BufferChunk.t));
  path : option string
}.

(** Modelled from the spec: [Pothos::ManagedClass()], nothing registered. *)
Definition empty : t := mk [] [] None.

(** Modelled from the spec: [registerConstructor<ClassType, Args...>()]. *)
Definition registerConstructor (args : list ArgType)
    (call : list Z -> option (Allocator -> Exec Heap BufferChunk.t)) (c : t) : t :=
  mk (constructors c ++ [(args, call)]) (fields c) (path c).
(** Modelled from the spec: [registerField(name, member)], "read-only
    access to address and length as named fields": the call registered
    under [name] reads the member and leaves the object as it is. *)
Definition registerField (name : string) (member : BufferChunk.t -> Z) (c : t) : t :=
  mk (constructors c) (fields c ++ [(name, fun obj => (member obj, obj))]) (path c).
(** Modelled from the spec: [commit(path)]. *)
Definition commit (p : string) (c : t) : t :=
  mk (constructors c) (fields c) (Some p).

(** Modelled from the spec: a constructor call by the "external
    generic-object system": the registered constructor whose signature
    has as many arguments as were passed. *)
Definition construct (c : t) (args : list Z)
  : option (Allocator -> Exec Heap BufferChunk.t) :=
  match find (fun e => (List.length (fst e) =? List.length args)%nat) (constructors c) with
  | Some e => snd e args
  | None => None
  end.
(** Modelled from the spec: a field access by name by the external object
    system: the value, and the object after the access. *)
Definition callField (c : t) (name : string) (obj : BufferChunk.t)
  : option (Z * BufferChunk.t) :=
  match find (fun e => String.eqb (fst e) name) (fields c) with
  | Some e => Some (snd e obj)
  | None => None
  end.
(** Modelled from the spec: the value a field access by name yields. *)
Definition getField (c : t) (name : string) (obj : BufferChunk.t) : option Z :=
  fst <$> callField c name obj.
(** The names and signatures a committed class answers to. *)
Definition fieldNames (c : t) : list string := map fst (fields c).
Definition constructorSignatures (c : t) : list (list ArgType) :=
  map fst (constructors c).
End ManagedClass.

(** POTHOS_FCN_TUPLE(Pothos::BufferChunk, address) is taken to name the
    field "address" and to point at the member.

    [static auto managedBufferChunk = Pothos::ManagedClass()
      .registerConstructor<Pothos::BufferChunk>()
      .registerConstructor<Pothos::BufferChunk, const size_t>()
      .registerField(POTHOS_FCN_TUPLE(Pothos::BufferChunk, address))
      .registerField(POTHOS_FCN_TUPLE(Pothos::BufferChunk, length))
      .commit("Pothos/BufferChunk")] *)
Definition managedBufferChunk : ManagedClass.t :=
  ManagedClass.commit "Pothos/BufferChunk"
    (ManagedClass.registerField "length" BufferChunk.length
    (ManagedClass.registerField "address" BufferChunk.address
    (ManagedClass.registerConstructor [ManagedClass.arg_size_t]
       (fun args => match args with
                    | [numBytes] => Some (fun place => BufferChunk.ctor_size place numBytes)
                    | _ => None
                    end)
    (ManagedClass.registerConstructor []
       (fun args => match args with
                    | [] => Some (fun _ => ret BufferChunk.ctor)
                    | _ => None
                    end)
     ManagedClass.empty)))).

(** ** A concrete platform, for the examples *)

(** A slab allocator: slot [i] starts at [base + i * slot]; a request is
    refused when it does not fit a slot or the slots are used up. *)
Definition slab (base slot slots : Z) : Allocator :=
  fun h n =>
    if (n <=? slot) && (Z.of_nat (next_container h) <? slots)
    then Some (base + Z.of_nat (next_container h) * slot)
    else None.

Definition empty_heap : Heap := mkHeap (fun _ => x00) ∅ 0 ∅ ∅ [].

(** ** Heaps and chunks that the statements name *)

(** The heap once the handles of [c] have been released. *)
Definition released (c : BufferChunk.t) (h : Heap) : Heap :=
  snd (BufferChunk.destroy c h).

(** The heap after [SharedBuffer::make] placed [n] bytes at [a]. *)
Definition allocated_heap (h : Heap) (a n : Z) : Heap :=
  mkHeap (bytes h)
         (<[next_container h := mkContainer a n 1]> (containers h))
         (S (next_container h)) (managed h) (pools h) (n :: requests h).

(** ... and after [data] was read into the new region. *)
Definition loaded_heap (h : Heap) (a n : Z) (data : list byte) : Heap :=
  with_bytes (allocated_heap h a n) (mem_write (bytes h) a data).

(** The heap after a request for [n] bytes was refused. *)
Definition refused_heap (h : Heap) (n : Z) : Heap :=
  mkHeap (bytes h) (containers h) (next_container h) (managed h) (pools h)
         (n :: requests h).

(** The chunk [BufferChunk(n)] builds on a region placed at [a]. *)
Definition sized_chunk (h : Heap) (a n : Z) : BufferChunk.t :=
  BufferChunk.mk a n (SharedBuffer.mk a n (Some (next_container h)))
                 ManagedBuffer.null.

(** The value of the length field of a serialized chunk: the four bytes
    after the flag, decoded. *)
Definition length_field (stream : list byte) : option Z :=
  match stream with
  | _ :: b0 :: b1 :: b2 :: b3 :: _ => Some (Archive.decode_UInt32 b0 b1 b2 b3)
  | _ => None
  end.

(** Container ids from [next_container] on are unused. *)
Definition fresh_ids (h : Heap) : Prop :=
  forall id : nat, (next_container h <= id)%nat -> containers h !! id = None.

(** The deserialization procedure in the spec's words, path by path: "read
    the flag; if null, produce the canonical null chunk; otherwise read the
    length, allocate a fresh owned chunk of that size, and read exactly
    that many bytes into it.  A truncated stream ... is a data-format
    error". *)
Definition load_by_cases (place : Allocator) (f : Serialization.Frame)
  : outcome unit * Serialization.Frame :=
  let h0 := released (Serialization.t f) (Serialization.heap f) in
  match Serialization.ar f with
  | [] => (Thrown DataFormatException, Serialization.mkFrame [] BufferChunk.ctor h0)
  | b :: after_flag =>
      if Archive.decode_bool b
      then (Returned tt, Serialization.mkFrame after_flag BufferChunk.ctor h0)
      else
        match after_flag with
        | b0 :: b1 :: b2 :: b3 :: rest =>
            let n := Archive.decode_UInt32 b0 b1 b2 b3 in
            match place h0 n with
            | None =>
                (Thrown OutOfMemoryException,
                 Serialization.mkFrame rest BufferChunk.ctor (refused_heap h0 n))
            | Some a =>
                if (Z.to_nat n <=? List.length rest)%nat
                then (Returned tt,
                      Serialization.mkFrame (drop (Z.to_nat n) rest) (sized_chunk h0 a n)
                        (loaded_heap h0 a n (take (Z.to_nat n) rest)))
                else (Thrown DataFormatException,
                      Serialization.mkFrame [] (sized_chunk h0 a n)
                        (loaded_heap h0 a n rest))
            end
        | _ => (Thrown DataFormatException, Serialization.mkFrame [] BufferChunk.ctor h0)
        end
  end.

(** A 64-bit host with room for a 4 GiB chunk. *)
Definition huge_place : Allocator := slab 4096 (2 ^ 33) 4.
Definition huge_chunk : BufferChunk.t := sized_chunk empty_heap 4096 (2 ^ 32).
Definition huge_heap : Heap := allocated_heap empty_heap 4096 (2 ^ 32).

(** A small host: four slots of 64 bytes. *)
Definition small_place : Allocator := slab 4096 64 4.

(** The end-to-end example: a 16-byte pattern in a 16-byte chunk. *)
Definition pattern16 : list byte :=
  [xa0; xa1; xa2; xa3; xa4; xa5; xa6; xa7; xa8; xa9; xaa; xab; xac; xad; xae; xaf].
Definition chunk16 : BufferChunk.t := sized_chunk empty_heap 4096 16.
Definition heap16 : Heap := loaded_heap empty_heap 4096 16 pattern16.

(** ** The bounds of a chunk inside the buffer it owns *)

(** As the data model words it: the address lies in
    [owned.address, owned.address + owned.length) and the chunk ends no
    later than the buffer. *)
Definition claimed_bounds (c : BufferChunk.t) : Prop :=
  BufferChunk.owns c = true ->
  let owned := BufferChunk._buffer c in
  (SharedBuffer.address owned <= BufferChunk.address c
     < SharedBuffer.address owned + SharedBuffer.length owned)
  /\ BufferChunk.address c + BufferChunk.length c
     <= SharedBuffer.address owned + SharedBuffer.length owned.

(** The same with the upper end admitted for an empty buffer. *)
Definition within_owned (c : BufferChunk.t) : Prop :=
  BufferChunk.owns c = true ->
  let owned := BufferChunk._buffer c in
  SharedBuffer.address owned <= BufferChunk.address c
  /\ BufferChunk.address c + BufferChunk.length c
     <= SharedBuffer.address owned + SharedBuffer.length owned
  /\ (0 < SharedBuffer.length owned ->
      BufferChunk.address c < SharedBuffer.address owned + SharedBuffer.length owned).

(** Address and length are those of the owned buffer. *)
Definition full_extent (c : BufferChunk.t) : Prop :=
  BufferChunk.address c = SharedBuffer.address (BufferChunk._buffer c)
  /\ BufferChunk.length c = SharedBuffer.length (BufferChunk._buffer c).

(** A heap with one plain shared buffer (container 1) and one pooled
    buffer (record 0 over container 0) issued by the live pool 7. *)
Definition plain_buffer : SharedBuffer.t := SharedBuffer.mk 8192 32 (Some 1%nat).
Definition pooled_buffer : ManagedBuffer.t := ManagedBuffer.mk (Some 0%nat).
Definition pooled_record : ManagedImpl :=
  mkManagedImpl (SharedBuffer.mk 4096 64 (Some 0%nat)) 1 7.
Definition pooled_heap : Heap :=
  mkHeap (fun _ => x00)
         (<[1%nat := mkContainer 8192 32 1]> (<[0%nat := mkContainer 4096 64 1]> ∅))
         2
         (<[0%nat := pooled_record]> ∅)
         (<[7%nat := []]> ∅)
         [32; 64].

(** ** Exception.hpp: the hierarchy as a relation *)

(** Every class Exception.hpp declares, in the order of declaration. *)
Definition all_classes : list ExceptionClass :=
  [ Exception;
    LogicException; AssertionViolationException; NullPointerException;
    NullValueException; BugcheckException; InvalidArgumentException;
    NotImplementedException; RangeException; IllegalStateException;
    InvalidAccessException; SignalException; UnhandledException;
    RuntimeException; NotFoundException; ExistsException; TimeoutException;
    SystemException; RegularExpressionException; LibraryLoadException;
    LibraryAlreadyLoadedException; NoThreadAvailableException;
    PropertyNotSupportedException; PoolOverflowException;
    NoPermissionException; OutOfMemoryException; DataException;
    DataFormatException; SyntaxException; CircularReferenceException;
    PathSyntaxException; IOException; ProtocolException; FileException;
    FileExistsException; FileNotFoundException; PathNotFoundException;
    FileReadOnlyException; FileAccessDeniedException; CreateFileException;
    OpenFileException; WriteFileException; ReadFileException;
    UnknownURISchemeException; ApplicationException; BadCastException ].

(** [derives c a]: [a] is [c] itself or a direct or indirect base of [c],
    following the BASE arguments with no bound on the number of steps. *)
Inductive derives : ExceptionClass -> ExceptionClass -> Prop :=
  | derives_self (c : ExceptionClass) : derives c c
  | derives_base (c b a : ExceptionClass) :
      base_class c = Some b -> derives b a -> derives c a.

(** The heap of [pooled_heap] once pool 7 has been torn down. *)
Definition orphan_heap : Heap := with_pools pooled_heap ∅.

(** One more owner of an allocation, one more handle on a managed record. *)
Definition one_more_owner (k : Container) : Container :=
  mkContainer (c_base k) (c_size k) (S (c_refs k)).
Definition one_more_handle (r : ManagedImpl) : ManagedImpl :=
  mkManagedImpl (mi_buffer r) (S (mi_refs r)) (mi_pool r).

(** A second chunk holding the 16-byte pattern, at another address of
    another heap. *)
Definition chunk16b : BufferChunk.t := sized_chunk heap16 4160 16.
Definition heap16b : Heap := loaded_heap heap16 4160 16 pattern16.

(** * Lemmas *)

(** ** Bytes, fixed-width integers, memory *)

Lemma Z_of_byte_range (b : byte) : 0 <= Z_of_byte b < 256.
Proof.
  unfold Z_of_byte. pose proof (Byte.to_N_bounded b). lia.
Qed.

Lemma Z_of_byte_of_Z (z : Z) : Z_of_byte (byte_of_Z z) = z mod 256.
Proof.
  unfold Z_of_byte, byte_of_Z.
  assert (Hr : 0 <= z mod 256 < 256) by (apply Z.mod_pos_bound; lia).
  destruct (Byte.of_N (Z.to_N (z mod 256))) as [b|] eqn:E.
  - apply Byte.to_of_N in E. rewrite E. lia.
  - apply Byte.of_N_None_iff in E. lia.
Qed.

Lemma decode_encode_UInt32 (n : Z) :
  0 <= n < UInt32_modulus ->
  match Archive.encode_UInt32 n with
  | [b0; b1; b2; b3] => Archive.decode_UInt32 b0 b1 b2 b3 = n
  | _ => False
  end.
Proof.
  intros Hn. unfold UInt32_modulus in Hn. cbn [Archive.encode_UInt32].
  unfold Archive.decode_UInt32. rewrite !Z_of_byte_of_Z.
  rewrite !Z.shiftr_div_pow2, !Z.shiftl_mul_pow2 by lia.
  change (2 ^ 8) with 256. change (2 ^ 16) with 65536. change (2 ^ 24) with 16777216.
  change (2 ^ 32) with 4294967296 in Hn.
  Z.to_euclidean_division_equations. lia.
Qed.

Lemma length_mem_read m p n : List.length (mem_read m p n) = n.
Proof. unfold mem_read. by rewrite length_map, length_seq. Qed.

Lemma mem_read_write m p bs :
  mem_read (mem_write m p bs) p (List.length bs) = bs.
Proof.
  unfold mem_read. apply list_eq; intros i. rewrite list_lookup_fmap.
  destruct (decide (i < List.length bs)%nat) as [Hi|Hi].
  - rewrite lookup_seq_lt by done. cbn [fmap option_fmap option_map Nat.add].
    unfold mem_write.
    replace ((p <=? p + Z.of_nat i) && (p + Z.of_nat i <? p + Z.of_nat (List.length bs)))
      with true by (symmetry; apply andb_true_iff; split; [apply Z.leb_le | apply Z.ltb_lt]; lia).
    replace (Z.to_nat (p + Z.of_nat i - p)) with i by lia.
    rewrite nth_lookup. destruct (bs !! i) eqn:E; [done|].
    apply lookup_ge_None in E. lia.
  - rewrite lookup_seq_ge, lookup_ge_None_2 by lia. done.
Qed.

Lemma decode_UInt32_range b0 b1 b2 b3 :
  0 <= Archive.decode_UInt32 b0 b1 b2 b3 < UInt32_modulus.
Proof.
  unfold Archive.decode_UInt32, UInt32_modulus.
  rewrite !Z.shiftl_mul_pow2 by lia.
  pose proof (Z_of_byte_range b0). pose proof (Z_of_byte_range b1).
  pose proof (Z_of_byte_range b2). pose proof (Z_of_byte_range b3).
  change (2 ^ 8) with 256. change (2 ^ 16) with 65536.
  change (2 ^ 24) with 16777216. change (2 ^ 32) with 4294967296. lia.
Qed.

Lemma to_size_t_UInt32 n : is_UInt32 n -> to_size_t n = n.
Proof.
  unfold is_UInt32, to_size_t, UInt32_modulus, size_t_modulus, size_t_bits.
  intros H. apply Z.mod_small.
  change (2 ^ 32) with 4294967296 in H.
  change (2 ^ 64) with 18446744073709551616. lia.
Qed.

Lemma to_UInt32_small n : is_UInt32 n -> to_UInt32 n = n.
Proof. intros H. apply Z.mod_small, H. Qed.

Lemma to_UInt32_range n : is_UInt32 (to_UInt32 n).
Proof. apply Z.mod_pos_bound. unfold UInt32_modulus. lia. Qed.

(** ** Releases always return *)

Lemma SharedBuffer_release_returns b h :
  fst (SharedBufferOps.release b h) = Returned tt.
Proof.
  unfold SharedBufferOps.release.
  destruct (SharedBuffer.container b) as [id|]; [|done].
  destruct (containers h !! id) as [c|]; [|done].
  destruct (c_refs c) as [|[|n]]; done.
Qed.

Lemma ManagedBuffer_release_returns b h :
  fst (ManagedBuffer.release b h) = Returned tt.
Proof.
  unfold ManagedBuffer.release.
  destruct (ManagedBuffer.impl b) as [i|]; [|done].
  destruct (managed h !! i) as [r|]; [|done].
  destruct (mi_refs r) as [|[|n]]; try done;
    (destruct (pools h !! mi_pool r); [done | apply SharedBuffer_release_returns]).
Qed.

Lemma destroy_returns c h :
  BufferChunk.destroy c h = (Returned tt, released c h).
Proof.
  unfold BufferChunk.destroy, bind.
  pose proof (ManagedBuffer_release_returns (BufferChunk._managedBuffer c) h) as H1.
  destruct (ManagedBuffer.release (BufferChunk._managedBuffer c) h) as [r1 h1] eqn:E1.
  cbn [fst] in H1. subst r1.
  pose proof (SharedBuffer_release_returns (BufferChunk._buffer c) h1) as H2.
  destruct (SharedBufferOps.release (BufferChunk._buffer c) h1) as [r2 h2] eqn:E2.
  cbn [fst] in H2. subst r2. unfold released, BufferChunk.destroy, bind.
  rewrite E1, E2. done.
Qed.

(** ** [save], equation by equation *)

Lemma serialize_null h c :
  BufferChunk.null c = true -> Serialization.serialize h c = [x01].
Proof.
  intros H. unfold Serialization.serialize, Serialization.save, bind.
  cbn. rewrite H. reflexivity.
Qed.

Lemma serialize_not_null h c :
  BufferChunk.null c = false ->
  Serialization.serialize h c =
    x00 :: Archive.encode_UInt32 (to_UInt32 (BufferChunk.length c))
        ++ payload h (BufferChunk.address c) (BufferChunk.length c).
Proof.
  intros H. unfold Serialization.serialize, Serialization.save, bind.
  cbn -[payload Archive.encode_UInt32 to_UInt32]. rewrite H.
  cbn -[payload to_UInt32]. reflexivity.
Qed.

(** ** [load], path by path *)

Lemma ctor_size_placed place n h a :
  place h n = Some a ->
  BufferChunk.ctor_size place n h = (Returned (sized_chunk h a n), allocated_heap h a n).
Proof.
  intros Hp. unfold BufferChunk.ctor_size, bind, SharedBufferOps.make, ret.
  rewrite Hp. reflexivity.
Qed.

Lemma ctor_size_refused place n h :
  place h n = None ->
  BufferChunk.ctor_size place n h = (Thrown OutOfMemoryException, refused_heap h n).
Proof.
  intros Hp. unfold BufferChunk.ctor_size, bind, SharedBufferOps.make.
  rewrite Hp. reflexivity.
Qed.

Ltac load_simpl := cbn -[Archive.decode_UInt32 to_size_t Z.to_nat take drop].

Ltac unfold_load :=
  unfold Serialization.load, Serialization.assign, Serialization.on_heap,
    Serialization.on_archive, Serialization.on_archive_and_heap,
    Archive.read_bool, Archive.read_UInt32, Archive.read_binary, bind, modify, ret;
  cbn -[Archive.decode_UInt32 to_size_t Z.to_nat take drop];
  rewrite destroy_returns;
  cbn -[Archive.decode_UInt32 to_size_t Z.to_nat take drop].

Section Load.
Variable place : Allocator.
Variables (t0 : BufferChunk.t) (h : Heap).
Local Abbreviation h0 := (released t0 h).

Lemma load_empty :
  Serialization.load place (Serialization.mkFrame [] t0 h)
  = (Thrown DataFormatException, Serialization.mkFrame [] BufferChunk.ctor h0).
Proof.
  unfold_load. reflexivity.
Qed.

Lemma load_flag_set b rest :
  Archive.decode_bool b = true ->
  Serialization.load place (Serialization.mkFrame (b :: rest) t0 h)
  = (Returned tt, Serialization.mkFrame rest BufferChunk.ctor h0).
Proof.
  intros Hb.
  unfold_load. rewrite Hb. reflexivity.
Qed.

Section Declared.
Variables (b b0 b1 b2 b3 : byte) (rest : list byte).
Hypothesis flag_clear : Archive.decode_bool b = false.
Local Abbreviation n := (Archive.decode_UInt32 b0 b1 b2 b3).
Local Abbreviation stream := (b :: b0 :: b1 :: b2 :: b3 :: rest).

Lemma load_refused :
  place h0 n = None ->
  Serialization.load place (Serialization.mkFrame stream t0 h)
  = (Thrown OutOfMemoryException,
     Serialization.mkFrame rest BufferChunk.ctor (refused_heap h0 n)).
Proof.
  intros Hp.
  unfold_load. rewrite flag_clear. load_simpl.
  rewrite to_size_t_UInt32 by apply decode_UInt32_range.
  rewrite (ctor_size_refused _ _ _ Hp). reflexivity.
Qed.

Lemma load_placed a :
  place h0 n = Some a -> (Z.to_nat n <= List.length rest)%nat ->
  Serialization.load place (Serialization.mkFrame stream t0 h)
  = (Returned tt,
     Serialization.mkFrame (drop (Z.to_nat n) rest) (sized_chunk h0 a n)
       (loaded_heap h0 a n (take (Z.to_nat n) rest))).
Proof.
  intros Hp Hlen.
  unfold_load. rewrite flag_clear. load_simpl.
  rewrite to_size_t_UInt32 by apply decode_UInt32_range.
  rewrite (ctor_size_placed _ _ _ _ Hp). load_simpl.
  apply Nat.leb_le in Hlen. rewrite Hlen. reflexivity.
Qed.

Lemma load_truncated a :
  place h0 n = Some a -> (List.length rest < Z.to_nat n)%nat ->
  Serialization.load place (Serialization.mkFrame stream t0 h)
  = (Thrown DataFormatException,
     Serialization.mkFrame [] (sized_chunk h0 a n) (loaded_heap h0 a n rest)).
Proof.
  intros Hp Hlen.
  unfold_load. rewrite flag_clear. load_simpl.
  rewrite to_size_t_UInt32 by apply decode_UInt32_range.
  rewrite (ctor_size_placed _ _ _ _ Hp). load_simpl.
  apply Nat.leb_gt in Hlen. rewrite Hlen. reflexivity.
Qed.
End Declared.
End Load.

Lemma load_closed_form place f :
  Serialization.load place f = load_by_cases place f.
Proof.
  destruct f as [inp t0 h]. unfold load_by_cases. cbn [Serialization.ar Serialization.t Serialization.heap].
  destruct inp as [|b after_flag]; [apply load_empty|].
  destruct (Archive.decode_bool b) eqn:Hb; [by apply load_flag_set|].
  destruct after_flag as [|b0 [|b1 [|b2 [|b3 rest]]]];
    try (unfold_load; rewrite Hb; reflexivity).
  cbv zeta.
  destruct (place (released t0 h) (Archive.decode_UInt32 b0 b1 b2 b3)) as [a|] eqn:Hp.
  - destruct (Z.to_nat (Archive.decode_UInt32 b0 b1 b2 b3) <=? List.length rest)%nat eqn:Hlen.
    + apply load_placed; [done..|]. by apply Nat.leb_le.
    + apply load_truncated; [done..|]. by apply Nat.leb_gt.
  - by apply load_refused.
Qed.

Lemma decode_encode_bytes n :
  is_UInt32 n ->
  Archive.decode_UInt32 (byte_of_Z n) (byte_of_Z (Z.shiftr n 8))
    (byte_of_Z (Z.shiftr n 16)) (byte_of_Z (Z.shiftr n 24)) = n.
Proof. intros H. exact (decode_encode_UInt32 n H). Qed.

Lemma length_field_serialize h c :
  BufferChunk.null c = false ->
  length_field (Serialization.serialize h c) = Some (to_UInt32 (BufferChunk.length c)).
Proof.
  intros Hn. rewrite (serialize_not_null _ _ Hn).
  cbn [Archive.encode_UInt32 app length_field].
  by rewrite decode_encode_bytes by apply to_UInt32_range.
Qed.

Lemma length_payload h p n : List.length (payload h p n) = Z.to_nat n.
Proof. apply length_mem_read. Qed.

Lemma payload_loaded h a n data :
  List.length data = Z.to_nat n -> payload (loaded_heap h a n data) a n = data.
Proof.
  intros H. unfold payload, loaded_heap. cbn [bytes with_bytes].
  rewrite <- H. apply mem_read_write.
Qed.

Lemma huge_chunk_built :
  BufferChunk.ctor_size huge_place (2 ^ 32) empty_heap = (Returned huge_chunk, huge_heap).
Proof. apply ctor_size_placed. reflexivity. Qed.

(** ** [deserialize], path by path *)

Section Deserialize.
Variables (place : Allocator) (h : Heap).

Lemma released_ctor : released BufferChunk.ctor h = h.
Proof. reflexivity. Qed.

Lemma deserialize_flag_set b rest :
  Archive.decode_bool b = true ->
  Serialization.deserialize place (b :: rest) h = (Returned BufferChunk.ctor, h).
Proof.
  intros Hb. unfold Serialization.deserialize.
  rewrite load_closed_form. unfold load_by_cases.
  cbn [Serialization.ar Serialization.t Serialization.heap]. by rewrite Hb.
Qed.

Section Declared.
Variables (b b0 b1 b2 b3 : byte) (rest : list byte).
Hypothesis flag_clear : Archive.decode_bool b = false.
Local Abbreviation n := (Archive.decode_UInt32 b0 b1 b2 b3).
Local Abbreviation stream := (b :: b0 :: b1 :: b2 :: b3 :: rest).

Lemma deserialize_placed a :
  place h n = Some a -> (Z.to_nat n <= List.length rest)%nat ->
  Serialization.deserialize place stream h
  = (Returned (sized_chunk h a n), loaded_heap h a n (take (Z.to_nat n) rest)).
Proof.
  intros Hp Hlen. unfold Serialization.deserialize.
  rewrite load_closed_form. unfold load_by_cases.
  cbn [Serialization.ar Serialization.t Serialization.heap].
  rewrite flag_clear, released_ctor. cbv zeta. rewrite Hp.
  apply Nat.leb_le in Hlen. by rewrite Hlen.
Qed.

Lemma deserialize_truncated a :
  place h n = Some a -> (List.length rest < Z.to_nat n)%nat ->
  Serialization.deserialize place stream h
  = (Thrown DataFormatException,
     released (sized_chunk h a n) (loaded_heap h a n rest)).
Proof.
  intros Hp Hlen. unfold Serialization.deserialize.
  rewrite load_closed_form. unfold load_by_cases.
  cbn [Serialization.ar Serialization.t Serialization.heap].
  rewrite flag_clear, released_ctor. cbv zeta. rewrite Hp.
  apply Nat.leb_gt in Hlen. by rewrite Hlen.
Qed.

Lemma deserialize_refused :
  place h n = None ->
  Serialization.deserialize place stream h
  = (Thrown OutOfMemoryException, refused_heap h n).
Proof.
  intros Hp. unfold Serialization.deserialize.
  rewrite load_closed_form. unfold load_by_cases.
  cbn [Serialization.ar Serialization.t Serialization.heap].
  rewrite flag_clear, released_ctor. cbv zeta. by rewrite Hp.
Qed.
End Declared.
End Deserialize.

(** Dropping the chunk [load] had allocated gives the allocation back. *)
Lemma released_sized_chunk h a n data :
  fresh_ids h ->
  containers (released (sized_chunk h a n) (loaded_heap h a n data)) = containers h.
Proof.
  intros Hfresh. unfold released, BufferChunk.destroy, bind.
  cbn -[insert delete]. rewrite lookup_insert_eq. cbn -[insert delete].
  apply delete_insert_id, Hfresh. lia.
Qed.

(** ** Container ids stay fresh *)

Lemma fresh_ids_empty : fresh_ids empty_heap.
Proof. intros id _. reflexivity. Qed.

Lemma fresh_ids_allocated h a n : fresh_ids h -> fresh_ids (allocated_heap h a n).
Proof.
  intros Hf id Hid. cbn [allocated_heap containers next_container] in *.
  rewrite lookup_insert_ne by lia. apply Hf. lia.
Qed.

Lemma fresh_ids_copy b h : fresh_ids h -> fresh_ids (snd (SharedBufferOps.copy b h)).
Proof.
  intros Hf. unfold SharedBufferOps.copy.
  destruct (SharedBuffer.container b) as [j|]; [|exact Hf].
  intros id Hid. cbn [snd containers next_container with_containers] in *.
  rewrite lookup_alter. case_decide; [subst j|]; by rewrite (Hf id Hid).
Qed.

Lemma fresh_ids_release b h : fresh_ids h -> fresh_ids (snd (SharedBufferOps.release b h)).
Proof.
  intros Hf. unfold SharedBufferOps.release.
  destruct (SharedBuffer.container b) as [j|]; [|exact Hf].
  destruct (containers h !! j) as [c|] eqn:Hj; [|exact Hf].
  assert (j <> next_container h /\ forall id, (next_container h <= id)%nat -> j <> id) as [_ Hne].
  { split; [|intros id Hid]; intros ->; rewrite Hf in Hj by lia; discriminate Hj. }
  destruct (c_refs c) as [|[|n]]; intros id Hid;
    cbn [snd containers next_container with_containers] in *;
    rewrite ?lookup_delete_ne, ?lookup_insert_ne by (by apply Hne); by apply Hf.
Qed.

(** ** The two exception classes this file raises *)

Remark raised_classes_are_runtime_exceptions :
  base_class OutOfMemoryException = Some RuntimeException
  /\ base_class DataFormatException = Some DataException
  /\ is_a OutOfMemoryException RuntimeException = true
  /\ is_a DataFormatException RuntimeException = true
  /\ is_a DataFormatException DataException = true
  /\ is_a OutOfMemoryException DataException = false
  /\ is_a DataFormatException LogicException = false.
Proof. by vm_compute. Qed.

(** * The claims *)

(** C3: every chunk built by the zero-argument constructor has address 0
    and length 0 and answers true to the null test; it owns no buffer: it
    is the canonical null chunk. *)
Theorem zero_argument_ctor_is_null :
  BufferChunk.address BufferChunk.ctor = 0
  /\ BufferChunk.length BufferChunk.ctor = 0
  /\ BufferChunk.null BufferChunk.ctor = true
  /\ BufferChunk.owns BufferChunk.ctor = false
  /\ BufferChunk._managedBuffer BufferChunk.ctor = ManagedBuffer.null.
Proof. repeat split. Qed.

(** C10: for a chunk that is not null and whose length is at least 2^32,
    [save] writes as length field the length reduced modulo 2^32, which is
    not the chunk's byte length. *)
Theorem save_truncates_long_length (h : Heap) (c : BufferChunk.t) :
  BufferChunk.null c = false ->
  UInt32_modulus <= BufferChunk.length c ->
  length_field (Serialization.serialize h c)
    = Some (BufferChunk.length c mod 2 ^ 32)
  /\ BufferChunk.length c mod 2 ^ 32 <> BufferChunk.length c.
Proof.
  intros Hn Hlen. split.
  - apply (length_field_serialize h c Hn).
  - pose proof (to_UInt32_range (BufferChunk.length c)) as Hr.
    unfold is_UInt32, to_UInt32, UInt32_modulus in *. lia.
Qed.

Lemma save_truncates_long_length_witness :
  BufferChunk.null huge_chunk = false
  /\ UInt32_modulus <= BufferChunk.length huge_chunk
  /\ length_field (Serialization.serialize huge_heap huge_chunk)
       = Some (BufferChunk.length huge_chunk mod 2 ^ 32)
  /\ BufferChunk.length huge_chunk mod 2 ^ 32 <> BufferChunk.length huge_chunk.
Proof.
  split; [reflexivity|]. split; [vm_compute; congruence|].
  apply (save_truncates_long_length huge_heap huge_chunk);
    [reflexivity | vm_compute; congruence].
Defined.

(** C2 as stated fails where the length does not fit the field: the chunk
    [BufferChunk(4294967296)] is not null and has 2^32 bytes, and [save]
    writes 0 as its length field. *)
Lemma length_field_differs_at_4GiB :
  BufferChunk.ctor_size huge_place (2 ^ 32) empty_heap = (Returned huge_chunk, huge_heap)
  /\ BufferChunk.null huge_chunk = false
  /\ BufferChunk.length huge_chunk = 4294967296
  /\ length_field (Serialization.serialize huge_heap huge_chunk) = Some 0
  /\ length_field (Serialization.serialize huge_heap huge_chunk)
       <> Some (BufferChunk.length huge_chunk).
Proof.
  assert (Hf : length_field (Serialization.serialize huge_heap huge_chunk) = Some 0)
    by (rewrite length_field_serialize by reflexivity; reflexivity).
  split; [apply huge_chunk_built|].
  split; [reflexivity|]. split; [reflexivity|]. split; [exact Hf|].
  rewrite Hf. intros H. discriminate H.
Qed.

(** C2, amended: [save] writes the flag; for a null chunk nothing more;
    otherwise the 4-byte length field, which holds the length modulo 2^32
    and so equals the chunk's byte length when that is below 2^32, and
    then exactly as many bytes of the chunk's memory as the chunk is
    long.  [load] reads the flag and yields the canonical null chunk if
    it is set; otherwise it reads the length, allocates a chunk of that
    size that it alone owns, and reads exactly that many bytes into it;
    it throws if the allocation fails or the stream is short. *)
Theorem wire_format (place : Allocator) (h : Heap) (c : BufferChunk.t)
    (f : Serialization.Frame) :
  Serialization.serialize h c
    = Archive.encode_bool (BufferChunk.null c)
      :: (if BufferChunk.null c then []
          else Archive.encode_UInt32 (to_UInt32 (BufferChunk.length c))
               ++ payload h (BufferChunk.address c) (BufferChunk.length c))
  /\ List.length (Serialization.serialize h c)
     = (if BufferChunk.null c then 1%nat
        else (5 + Z.to_nat (BufferChunk.length c))%nat)
  /\ length_field (Serialization.serialize h c)
     = (if BufferChunk.null c then None
        else Some (BufferChunk.length c mod 2 ^ 32))
  /\ (is_UInt32 (BufferChunk.length c) ->
      length_field (Serialization.serialize h c)
      = if BufferChunk.null c then None else Some (BufferChunk.length c))
  /\ drop 5 (Serialization.serialize h c)
     = (if BufferChunk.null c then []
        else payload h (BufferChunk.address c) (BufferChunk.length c))
  /\ let h0 := released (Serialization.t f) (Serialization.heap f) in
     match Serialization.ar f with
     | [] =>
         Serialization.load place f
         = (Thrown DataFormatException, Serialization.mkFrame [] BufferChunk.ctor h0)
     | b :: after_flag =>
         if Archive.decode_bool b
         then Serialization.load place f
              = (Returned tt, Serialization.mkFrame after_flag BufferChunk.ctor h0)
         else
           match after_flag with
           | b0 :: b1 :: b2 :: b3 :: rest =>
               let n := Archive.decode_UInt32 b0 b1 b2 b3 in
               match place h0 n with
               | None =>
                   Serialization.load place f
                   = (Thrown OutOfMemoryException,
                      Serialization.mkFrame rest BufferChunk.ctor (refused_heap h0 n))
               | Some a =>
                   if (Z.to_nat n <=? List.length rest)%nat
                   then
                     exists f' : Serialization.Frame,
                       Serialization.load place f = (Returned tt, f')
                       /\ Serialization.ar f' = drop (Z.to_nat n) rest
                       /\ BufferChunk.length (Serialization.t f') = n
                       /\ BufferChunk.address (Serialization.t f') = a
                       /\ SharedBuffer.container (BufferChunk._buffer (Serialization.t f'))
                          = Some (next_container h0)
                       /\ BufferChunk._managedBuffer (Serialization.t f')
                          = ManagedBuffer.null
                       /\ containers (Serialization.heap f')
                          = <[next_container h0 := mkContainer a n 1]> (containers h0)
                       /\ requests (Serialization.heap f') = n :: requests h0
                       /\ payload (Serialization.heap f')
                                  (BufferChunk.address (Serialization.t f'))
                                  (BufferChunk.length (Serialization.t f'))
                          = take (Z.to_nat n) rest
                   else fst (Serialization.load place f) = Thrown DataFormatException
               end
           | _ => fst (Serialization.load place f) = Thrown DataFormatException
           end
     end.
Proof.
  split; [|split; [|split; [|split; [|split]]]].
  - destruct (BufferChunk.null c) eqn:Hn.
    + by rewrite serialize_null.
    + by rewrite serialize_not_null.
  - destruct (BufferChunk.null c) eqn:Hn.
    + by rewrite serialize_null.
    + rewrite serialize_not_null by done.
      cbn [Archive.encode_UInt32 app List.length]. by rewrite length_payload.
  - destruct (BufferChunk.null c) eqn:Hn.
    + by rewrite serialize_null.
    + by rewrite length_field_serialize.
  - intros Hlen. destruct (BufferChunk.null c) eqn:Hn.
    + by rewrite serialize_null.
    + rewrite length_field_serialize by done. by rewrite to_UInt32_small.
  - destruct (BufferChunk.null c) eqn:Hn.
    + by rewrite serialize_null.
    + by rewrite serialize_not_null.
  - cbv zeta. rewrite load_closed_form. unfold load_by_cases.
    destruct (Serialization.ar f) as [|b after_flag]; [reflexivity|].
    destruct (Archive.decode_bool b); [reflexivity|].
    destruct after_flag as [|b0 [|b1 [|b2 [|b3 rest]]]]; try reflexivity.
    cbv zeta.
    destruct (place _ _) as [a|]; [|reflexivity].
    destruct (_ <=? _)%nat eqn:E; [|reflexivity].
    eexists. split; [reflexivity|].
    cbn [Serialization.ar Serialization.t Serialization.heap sized_chunk
         BufferChunk.length BufferChunk.address BufferChunk._buffer
         BufferChunk._managedBuffer SharedBuffer.container].
    do 7 (split; [reflexivity|]).
    apply payload_loaded. rewrite length_take. apply Nat.leb_le in E. lia.
Qed.

Lemma wire_format_witness :
  is_UInt32 (BufferChunk.length chunk16)
  /\ length_field (Serialization.serialize heap16 chunk16)
     = Some (BufferChunk.length chunk16)
  /\ Serialization.serialize heap16 chunk16 = [x00; x10; x00; x00; x00] ++ pattern16
  /\ exists f' : Serialization.Frame,
       Serialization.load small_place
         (Serialization.mkFrame ([x00; x10; x00; x00; x00] ++ pattern16)
            BufferChunk.ctor heap16)
       = (Returned tt, f')
       /\ BufferChunk.length (Serialization.t f') = 16
       /\ payload (Serialization.heap f')
                  (BufferChunk.address (Serialization.t f'))
                  (BufferChunk.length (Serialization.t f'))
          = pattern16.
Proof.
  assert (H1 : is_UInt32 (BufferChunk.length chunk16)) by (vm_compute; split; congruence).
  destruct (wire_format small_place heap16 chunk16
              (Serialization.mkFrame ([x00; x10; x00; x00; x00] ++ pattern16)
                 BufferChunk.ctor heap16))
    as (Hs & _ & _ & Hf & _ & Hload).
  split; [exact H1|]. split; [exact (Hf H1)|]. split; [rewrite Hs; reflexivity|].
  destruct Hload as (f' & Hl & _ & Hlen & _ & _ & _ & _ & _ & Hpay).
  exists f'. split; [exact Hl|]. split; [exact Hlen|]. exact Hpay.
Defined.

(** C1 as stated fails for a chunk of 2^32 bytes: [BufferChunk(4294967296)]
    serializes with length field 0, and deserializing that stream returns
    a chunk of length 0. *)
Lemma roundtrip_loses_length_at_4GiB :
  BufferChunk.ctor_size huge_place (2 ^ 32) empty_heap = (Returned huge_chunk, huge_heap)
  /\ BufferChunk.length huge_chunk = 4294967296
  /\ fst (Serialization.deserialize huge_place
            (Serialization.serialize huge_heap huge_chunk) huge_heap)
     = Returned (sized_chunk huge_heap 8589938688 0)
  /\ BufferChunk.length (sized_chunk huge_heap 8589938688 0)
     <> BufferChunk.length huge_chunk.
Proof.
  split; [apply huge_chunk_built|]. split; [reflexivity|]. split; [|discriminate].
  rewrite serialize_not_null by reflexivity.
  generalize (payload huge_heap (BufferChunk.address huge_chunk)
                (BufferChunk.length huge_chunk)).
  intros rest.
  change (Archive.encode_UInt32 (to_UInt32 (BufferChunk.length huge_chunk)))
    with [x00; x00; x00; x00].
  cbn [app].
  rewrite (deserialize_placed huge_place huge_heap x00 x00 x00 x00 x00 rest
             eq_refl 8589938688 eq_refl).
  - reflexivity.
  - change (Z.to_nat (Archive.decode_UInt32 x00 x00 x00 x00)) with 0%nat. lia.
Qed.

(** C1, amended: a chunk whose length is below 2^32 (and 0 if it is null)
    comes back from [deserialize (serialize C)] with the same length and
    the same payload bytes, whenever the allocation inside [load]
    succeeds; a null chunk serializes to exactly the one flag byte, and
    that byte deserializes to the canonical null chunk, the heap
    untouched.  The chunk is written from heap [h] and read back into heap
    [g], which may be the same or that of another process. *)
Theorem roundtrip (place : Allocator) (h g : Heap) (c : BufferChunk.t) :
  is_UInt32 (BufferChunk.length c) ->
  (BufferChunk.null c = true -> BufferChunk.length c = 0) ->
  (BufferChunk.null c = false -> is_Some (place g (BufferChunk.length c))) ->
  exists (c' : BufferChunk.t) (g' : Heap),
    Serialization.deserialize place (Serialization.serialize h c) g = (Returned c', g')
    /\ BufferChunk.length c' = BufferChunk.length c
    /\ payload g' (BufferChunk.address c') (BufferChunk.length c')
       = payload h (BufferChunk.address c) (BufferChunk.length c)
    /\ if BufferChunk.null c
       then Serialization.serialize h c = [Archive.encode_bool true]
            /\ c' = BufferChunk.ctor /\ g' = g
       else BufferChunk.owns c' = true.
Proof.
  intros Hlen Hnull Hplace. destruct (BufferChunk.null c) eqn:Hn.
  - exists BufferChunk.ctor, g. rewrite (serialize_null h c Hn).
    rewrite (Hnull eq_refl).
    split; [by apply deserialize_flag_set|]. by repeat split.
  - destruct (Hplace eq_refl) as [a Ha].
    rewrite (serialize_not_null h c Hn), (to_UInt32_small _ Hlen).
    cbn [Archive.encode_UInt32 app].
    set (L := BufferChunk.length c) in *.
    set (data := payload h (BufferChunk.address c) L).
    assert (Hdec : Archive.decode_UInt32 (byte_of_Z L) (byte_of_Z (Z.shiftr L 8))
                     (byte_of_Z (Z.shiftr L 16)) (byte_of_Z (Z.shiftr L 24)) = L)
      by (by apply decode_encode_bytes).
    assert (Hdata : List.length data = Z.to_nat L) by apply length_payload.
    exists (sized_chunk g a L), (loaded_heap g a L data).
    split; [|split; [reflexivity|split; [|reflexivity]]].
    + rewrite (deserialize_placed place g x00 _ _ _ _ data eq_refl a);
        rewrite Hdec; [| done | lia].
      by rewrite take_ge by lia.
    + by apply payload_loaded.
Qed.

Lemma roundtrip_witness :
  is_UInt32 (BufferChunk.length chunk16)
  /\ (BufferChunk.null chunk16 = true -> BufferChunk.length chunk16 = 0)
  /\ (BufferChunk.null chunk16 = false ->
      is_Some (small_place heap16 (BufferChunk.length chunk16)))
  /\ exists (c' : BufferChunk.t) (g' : Heap),
       Serialization.deserialize small_place
         (Serialization.serialize heap16 chunk16) heap16 = (Returned c', g')
       /\ BufferChunk.length c' = 16
       /\ payload g' (BufferChunk.address c') (BufferChunk.length c') = pattern16.
Proof.
  assert (H1 : is_UInt32 (BufferChunk.length chunk16)) by (vm_compute; split; congruence).
  assert (H2 : BufferChunk.null chunk16 = true -> BufferChunk.length chunk16 = 0)
    by (vm_compute; congruence).
  assert (H3 : BufferChunk.null chunk16 = false ->
               is_Some (small_place heap16 (BufferChunk.length chunk16)))
    by (intros _; vm_compute; eexists; reflexivity).
  split; [exact H1|]. split; [exact H2|]. split; [exact H3|].
  destruct (roundtrip small_place heap16 heap16 chunk16 H1 H2 H3)
    as (c' & g' & Hd & Hl & Hp & _).
  exists c', g'. split; [exact Hd|]. split; [exact Hl|].
  rewrite Hp. vm_compute. reflexivity.
Defined.

(** C5: a 16-byte chunk holding a 16-byte pattern serializes to the flag
    byte 0x00, the length 16 as 0x10 0x00 0x00 0x00 (little-endian), and
    the 16 pattern bytes; deserializing that stream, into the same heap
    or another, gives a chunk of the same length with the same bytes. *)
Theorem end_to_end_example (place : Allocator) (h g : Heap)
    (c : BufferChunk.t) (pattern : list byte) :
  BufferChunk.length c = 16 ->
  BufferChunk.null c = false ->
  payload h (BufferChunk.address c) (BufferChunk.length c) = pattern ->
  is_Some (place g 16) ->
  Serialization.serialize h c = [x00; x10; x00; x00; x00] ++ pattern
  /\ exists (c' : BufferChunk.t) (g' : Heap),
       Serialization.deserialize place ([x00; x10; x00; x00; x00] ++ pattern) g
         = (Returned c', g')
       /\ BufferChunk.length c' = BufferChunk.length c
       /\ payload g' (BufferChunk.address c') (BufferChunk.length c')
          = payload h (BufferChunk.address c) (BufferChunk.length c)
       /\ payload g' (BufferChunk.address c') (BufferChunk.length c') = pattern.
Proof.
  intros Hc Hnn Hpay [a' Ha'].
  assert (Hpat : List.length pattern = 16%nat).
  { rewrite <- Hpay, length_payload, Hc. reflexivity. }
  split.
  { rewrite (serialize_not_null _ _ Hnn), Hpay, Hc. reflexivity. }
  exists (sized_chunk g a' 16), (loaded_heap g a' 16 pattern).
  assert (Hback : payload (loaded_heap g a' 16 pattern) a' 16 = pattern)
    by (apply payload_loaded; rewrite Hpat; reflexivity).
  split; [|split; [by rewrite Hc|split; [by rewrite Hpay|exact Hback]]].
  cbn [app].
  rewrite (deserialize_placed place g x00 x10 x00 x00 x00 pattern eq_refl a' Ha');
    change (Z.to_nat (Archive.decode_UInt32 x10 x00 x00 x00)) with 16%nat; [|lia].
  by rewrite take_ge by lia.
Qed.

Lemma end_to_end_example_witness :
  BufferChunk.ctor_size small_place 16 empty_heap
    = (Returned chunk16, allocated_heap empty_heap 4096 16)
  /\ BufferChunk.length chunk16 = 16
  /\ BufferChunk.null chunk16 = false
  /\ payload heap16 (BufferChunk.address chunk16) (BufferChunk.length chunk16) = pattern16
  /\ is_Some (small_place heap16 16)
  /\ Serialization.serialize heap16 chunk16 = [x00; x10; x00; x00; x00] ++ pattern16
  /\ exists (c' : BufferChunk.t) (h' : Heap),
       Serialization.deserialize small_place ([x00; x10; x00; x00; x00] ++ pattern16) heap16
         = (Returned c', h')
       /\ BufferChunk.length c' = 16
       /\ payload h' (BufferChunk.address c') (BufferChunk.length c') = pattern16.
Proof.
  assert (H1 : BufferChunk.length chunk16 = 16) by reflexivity.
  assert (H2 : BufferChunk.null chunk16 = false) by reflexivity.
  assert (H3 : payload heap16 (BufferChunk.address chunk16) (BufferChunk.length chunk16)
               = pattern16) by (vm_compute; reflexivity).
  assert (H4 : is_Some (small_place heap16 16)) by (vm_compute; eexists; reflexivity).
  split; [reflexivity|]. split; [exact H1|]. split; [exact H2|].
  split; [exact H3|]. split; [exact H4|].
  destruct (end_to_end_example small_place heap16 heap16 chunk16 pattern16 H1 H2 H3 H4)
    as (Hs & c' & h' & Hd & Hl & _ & Hp).
  split; [exact Hs|]. exists c', h'.
  split; [exact Hd|]. split; [by rewrite Hl|exact Hp].
Defined.

(** C4 as stated fails when the declared length cannot be allocated: the
    stream declares 4096 payload bytes and carries one; on a host that
    refuses 4096 bytes [load] throws OutOfMemory at the allocation, before
    it looks at the payload. *)
Lemma truncated_stream_out_of_memory :
  Archive.decode_bool x00 = false
  /\ Archive.decode_UInt32 x00 x10 x00 x00 = 4096
  /\ (List.length [xaa] < Z.to_nat 4096)%nat
  /\ small_place empty_heap 4096 = None
  /\ fst (Serialization.deserialize small_place [x00; x00; x10; x00; x00; xaa] empty_heap)
     = Thrown OutOfMemoryException
  /\ fst (Serialization.deserialize small_place [x00; x00; x10; x00; x00; xaa] empty_heap)
     <> Thrown DataFormatException.
Proof.
  split; [reflexivity|]. split; [reflexivity|]. split; [vm_compute; lia|].
  split; [reflexivity|].
  rewrite (deserialize_refused small_place empty_heap x00 x00 x10 x00 x00 [xaa] eq_refl eq_refl).
  split; [reflexivity|discriminate].
Qed.

(** C4, amended: on a stream whose flag is clear and whose declared length
    L exceeds the payload bytes that remain, deserialization throws and
    returns no chunk: DataFormat when the L-byte chunk could be allocated,
    OutOfMemory when it could not; in both cases the allocation table is
    afterwards what it was before, the chunk [load] had built is gone. *)
Theorem truncated_stream_fails (place : Allocator) (h : Heap)
    (b b0 b1 b2 b3 : byte) (rest : list byte) :
  fresh_ids h ->
  Archive.decode_bool b = false ->
  (List.length rest < Z.to_nat (Archive.decode_UInt32 b0 b1 b2 b3))%nat ->
  let r := Serialization.deserialize place (b :: b0 :: b1 :: b2 :: b3 :: rest) h in
  fst r = Thrown (match place h (Archive.decode_UInt32 b0 b1 b2 b3) with
                  | Some _ => DataFormatException
                  | None => OutOfMemoryException
                  end)
  /\ containers (snd r) = containers h
  /\ managed (snd r) = managed h
  /\ pools (snd r) = pools h.
Proof.
  intros Hfresh Hb Hlen r. subst r.
  destruct (place h (Archive.decode_UInt32 b0 b1 b2 b3)) as [a|] eqn:Hp.
  - rewrite (deserialize_truncated place h b b0 b1 b2 b3 rest Hb a Hp Hlen).
    cbn [fst snd]. split; [reflexivity|].
    split; [by apply released_sized_chunk|].
    unfold released, BufferChunk.destroy, bind.
    cbn -[insert delete]. rewrite lookup_insert_eq. by cbn -[insert delete].
  - rewrite (deserialize_refused place h b b0 b1 b2 b3 rest Hb Hp).
    by cbn [fst snd].
Qed.

Lemma truncated_stream_fails_witness :
  fresh_ids empty_heap
  /\ Archive.decode_bool x00 = false
  /\ (List.length [xaa] < Z.to_nat (Archive.decode_UInt32 x04 x00 x00 x00))%nat
  /\ fst (Serialization.deserialize small_place [x00; x04; x00; x00; x00; xaa] empty_heap)
     = Thrown DataFormatException
  /\ containers
       (snd (Serialization.deserialize small_place [x00; x04; x00; x00; x00; xaa] empty_heap))
     = containers empty_heap.
Proof.
  assert (H1 : fresh_ids empty_heap) by (intros id _; reflexivity).
  assert (H2 : Archive.decode_bool x00 = false) by reflexivity.
  assert (H3 : (List.length [xaa] < Z.to_nat (Archive.decode_UInt32 x04 x00 x00 x00))%nat)
    by (vm_compute; lia).
  split; [exact H1|]. split; [exact H2|]. split; [exact H3|].
  destruct (truncated_stream_fails small_place empty_heap x00 x04 x00 x00 x00 [xaa] H1 H2 H3)
    as (Hf & Hc & _).
  split; [exact Hf | exact Hc].
Defined.

(** C6: [BufferChunk(numBytes)] asks the allocator once, for exactly
    numBytes.  If the request is met, the chunk has length numBytes and
    the address of the new region, and holds the only reference to a new
    allocation record of numBytes bytes; if not, OutOfMemory reaches the
    caller after that single request, nothing having been allocated. *)
Theorem sized_ctor_allocates_once (place : Allocator) (numBytes : Z) (h : Heap) :
  match place h numBytes with
  | Some a =>
      exists (c : BufferChunk.t) (h' : Heap),
        BufferChunk.ctor_size place numBytes h = (Returned c, h')
        /\ BufferChunk.length c = numBytes
        /\ BufferChunk.address c = a
        /\ BufferChunk._buffer c = SharedBuffer.mk a numBytes (Some (next_container h))
        /\ BufferChunk._managedBuffer c = ManagedBuffer.null
        /\ containers h' = <[next_container h := mkContainer a numBytes 1]> (containers h)
        /\ requests h' = numBytes :: requests h
        /\ bytes h' = bytes h /\ managed h' = managed h /\ pools h' = pools h
  | None =>
      exists h' : Heap,
        BufferChunk.ctor_size place numBytes h = (Thrown OutOfMemoryException, h')
        /\ containers h' = containers h
        /\ requests h' = numBytes :: requests h
  end.
Proof.
  destruct (place h numBytes) as [a|] eqn:Hp.
  - exists (sized_chunk h a numBytes), (allocated_heap h a numBytes).
    split; [by apply ctor_size_placed|]. by repeat split.
  - exists (refused_heap h numBytes).
    split; [by apply ctor_size_refused|]. by split.
Qed.

(** C8 as stated fails for an empty owned buffer: [BufferChunk(0)] owns a
    buffer of 0 bytes at its own address, and so does the chunk adopting a
    shared buffer of 0 bytes; no address lies in the empty range
    [owned.address, owned.address + 0). *)
Lemma empty_owned_chunk_breaks_bounds :
  BufferChunk.ctor_size small_place 0 empty_heap
    = (Returned (sized_chunk empty_heap 4096 0), allocated_heap empty_heap 4096 0)
  /\ BufferChunk.owns (sized_chunk empty_heap 4096 0) = true
  /\ ~ claimed_bounds (sized_chunk empty_heap 4096 0)
  /\ fst (BufferChunk.ctor_shared (SharedBuffer.mk 4096 0 (Some 0%nat))
            (allocated_heap empty_heap 4096 0))
     = Returned (BufferChunk.mk 4096 0 (SharedBuffer.mk 4096 0 (Some 0%nat))
                   ManagedBuffer.null)
  /\ ~ claimed_bounds (BufferChunk.mk 4096 0 (SharedBuffer.mk 4096 0 (Some 0%nat))
                         ManagedBuffer.null).
Proof.
  split; [reflexivity|]. split; [reflexivity|].
  assert (Hno : ~ claimed_bounds (sized_chunk empty_heap 4096 0)).
  { intros H. destruct (H eq_refl) as [[_ Hlt] _]. vm_compute in Hlt. discriminate Hlt. }
  split; [exact Hno|]. split; [reflexivity|exact Hno].
Qed.

Lemma full_extent_within_owned c : full_extent c -> within_owned c.
Proof. intros [Ha Hl] _. cbv zeta. rewrite Ha, Hl. lia. Qed.

Lemma ctor_shared_returns buffer h :
  BufferChunk.ctor_shared buffer h
  = (Returned (BufferChunk.mk (SharedBuffer.address buffer) (SharedBuffer.length buffer)
                 buffer ManagedBuffer.null),
     snd (SharedBufferOps.copy buffer h)).
Proof.
  unfold BufferChunk.ctor_shared, bind, SharedBufferOps.copy.
  by destruct (SharedBuffer.container buffer).
Qed.

Lemma ctor_managed_returns mb h :
  BufferChunk.ctor_managed mb h
  = (Returned (BufferChunk.mk
                 (SharedBuffer.address (ManagedBuffer.getBuffer mb h))
                 (SharedBuffer.length (ManagedBuffer.getBuffer mb h))
                 (ManagedBuffer.getBuffer mb h) mb),
     snd (ManagedBuffer.copy mb (snd (SharedBufferOps.copy (ManagedBuffer.getBuffer mb h) h)))).
Proof.
  unfold BufferChunk.ctor_managed, bind, get, SharedBufferOps.copy, ManagedBuffer.copy.
  destruct (SharedBuffer.container (ManagedBuffer.getBuffer mb h));
    by destruct (ManagedBuffer.impl mb).
Qed.

(** C8, amended: a chunk that owns a buffer starts no earlier and ends no
    later than that buffer, and starts before the buffer's end unless the
    buffer is empty.  Each constructor establishes this; the three owning
    ones with address and length equal to those of the owned buffer. *)
Theorem constructors_establish_bounds :
  within_owned BufferChunk.ctor
  /\ (forall (place : Allocator) (numBytes : Z) (h : Heap),
        match place h numBytes with
        | Some a =>
            exists (c : BufferChunk.t) (h' : Heap),
              BufferChunk.ctor_size place numBytes h = (Returned c, h')
              /\ BufferChunk.owns c = true /\ within_owned c /\ full_extent c
        | None =>
            fst (BufferChunk.ctor_size place numBytes h) = Thrown OutOfMemoryException
        end)
  /\ (forall (buffer : SharedBuffer.t) (h : Heap),
        exists (c : BufferChunk.t) (h' : Heap),
          BufferChunk.ctor_shared buffer h = (Returned c, h')
          /\ BufferChunk._buffer c = buffer /\ within_owned c /\ full_extent c)
  /\ (forall (buffer : ManagedBuffer.t) (h : Heap),
        exists (c : BufferChunk.t) (h' : Heap),
          BufferChunk.ctor_managed buffer h = (Returned c, h')
          /\ BufferChunk._buffer c = ManagedBuffer.getBuffer buffer h
          /\ within_owned c /\ full_extent c).
Proof.
  split; [|split; [|split]].
  - intros H. discriminate H.
  - intros place numBytes h. destruct (place h numBytes) as [a|] eqn:Hp.
    + exists (sized_chunk h a numBytes), (allocated_heap h a numBytes).
      split; [by apply ctor_size_placed|]. split; [reflexivity|].
      split; [apply full_extent_within_owned|]; by split.
    + by rewrite (ctor_size_refused _ _ _ Hp).
  - intros buffer h. eexists _, _. split; [apply ctor_shared_returns|].
    split; [reflexivity|]. split; [apply full_extent_within_owned|]; by split.
  - intros buffer h. eexists _, _. split; [apply ctor_managed_returns|].
    split; [reflexivity|]. split; [apply full_extent_within_owned|]; by split.
Qed.

(** ** Adopting constructors and the release of what they adopted *)

Section Adopting.
Variable h : Heap.

Section FromShared.
Variables (buffer : SharedBuffer.t) (id : nat) (k : Container).
Hypothesis owns_id : SharedBuffer.container buffer = Some id.
Hypothesis live : containers h !! id = Some k.

Local Abbreviation c := (BufferChunk.mk (SharedBuffer.address buffer)
                           (SharedBuffer.length buffer) buffer ManagedBuffer.null).
Local Abbreviation h1 := (snd (SharedBufferOps.copy buffer h)).

Lemma shared_copy_counts :
  containers h1 !! id = Some (mkContainer (c_base k) (c_size k) (S (c_refs k)))
  /\ managed h1 = managed h /\ pools h1 = pools h.
Proof.
  unfold SharedBufferOps.copy. rewrite owns_id. cbn [snd containers with_containers].
  rewrite lookup_alter_eq, live. done.
Qed.

End FromShared.

Section FromManaged.
Variables (mb : ManagedBuffer.t) (i : nat) (r : ManagedImpl).
Variables (id : nat) (k : Container) (free : list SharedBuffer.t).
Hypothesis names_i : ManagedBuffer.impl mb = Some i.
Hypothesis record : managed h !! i = Some r.
Hypothesis owns_id : SharedBuffer.container (mi_buffer r) = Some id.
Hypothesis live : containers h !! id = Some k.

Local Abbreviation c :=
  (BufferChunk.mk (SharedBuffer.address (mi_buffer r))
     (SharedBuffer.length (mi_buffer r)) (mi_buffer r) mb).
Local Abbreviation h1 :=
  (snd (ManagedBuffer.copy mb (snd (SharedBufferOps.copy (mi_buffer r) h)))).

Lemma getBuffer_record : ManagedBuffer.getBuffer mb h = mi_buffer r.
Proof. unfold ManagedBuffer.getBuffer. by rewrite names_i, record. Qed.

Lemma managed_copy_counts :
  managed h1 !! i = Some (mkManagedImpl (mi_buffer r) (S (mi_refs r)) (mi_pool r))
  /\ containers h1 !! id = Some (mkContainer (c_base k) (c_size k) (S (c_refs k)))
  /\ pools h1 = pools h.
Proof.
  unfold ManagedBuffer.copy, SharedBufferOps.copy. rewrite names_i, owns_id.
  cbn [snd containers managed pools with_containers with_managed].
  rewrite !lookup_alter_eq, record, live. done.
Qed.

End FromManaged.
End Adopting.

(** The counts after the adopting constructors, whatever the handles. *)
Lemma copy_counts b h id :
  SharedBuffer.container b = Some id ->
  containers (snd (SharedBufferOps.copy b h)) !! id
  = one_more_owner <$> containers h !! id.
Proof.
  intros Hb. unfold SharedBufferOps.copy. rewrite Hb.
  cbn [snd containers with_containers]. apply lookup_alter_eq.
Qed.

Lemma copy_frame b h :
  managed (snd (SharedBufferOps.copy b h)) = managed h
  /\ pools (snd (SharedBufferOps.copy b h)) = pools h.
Proof. unfold SharedBufferOps.copy. by destruct (SharedBuffer.container b). Qed.

Lemma managed_copy_frame m h :
  containers (snd (ManagedBuffer.copy m h)) = containers h
  /\ pools (snd (ManagedBuffer.copy m h)) = pools h.
Proof. unfold ManagedBuffer.copy. by destruct (ManagedBuffer.impl m). Qed.

Lemma managed_copy_handles m h i :
  ManagedBuffer.impl m = Some i ->
  managed (snd (ManagedBuffer.copy m h)) !! i = one_more_handle <$> managed h !! i.
Proof.
  intros Hi. unfold ManagedBuffer.copy. rewrite Hi.
  cbn [snd managed with_managed]. apply lookup_alter_eq.
Qed.

Lemma SharedBuffer_release_live b h id k n :
  SharedBuffer.container b = Some id ->
  containers h !! id = Some k -> c_refs k = S (S n) ->
  SharedBufferOps.release b h
  = (Returned tt,
     with_containers h (<[id := mkContainer (c_base k) (c_size k) (S n)]> (containers h))).
Proof.
  intros Hb Hk Hn. unfold SharedBufferOps.release. by rewrite Hb, Hk, Hn.
Qed.

Lemma SharedBuffer_release_last b h id k :
  SharedBuffer.container b = Some id ->
  containers h !! id = Some k -> c_refs k = 1%nat ->
  SharedBufferOps.release b h
  = (Returned tt, with_containers h (delete id (containers h))).
Proof.
  intros Hb Hk Hn. unfold SharedBufferOps.release. by rewrite Hb, Hk, Hn.
Qed.

(** The release of a chunk that holds the last handle on its managed
    buffer: with the pool alive the buffer goes onto the free list and
    the allocation only loses the chunk's own share; with the pool gone
    the record's share is given up as well. *)
Lemma released_last_managed_owner c h i r id k :
  ManagedBuffer.impl (BufferChunk._managedBuffer c) = Some i ->
  managed h !! i = Some r ->
  mi_refs r = 1%nat ->
  BufferChunk._buffer c = mi_buffer r ->
  SharedBuffer.container (BufferChunk._buffer c) = Some id ->
  containers h !! id = Some k ->
  (2 <= c_refs k)%nat ->
  managed (released c h) !! i = None
  /\ match pools h !! mi_pool r with
     | Some free =>
         pools (released c h) !! mi_pool r = Some (mi_buffer r :: free)
         /\ containers (released c h) !! id
            = Some (mkContainer (c_base k) (c_size k) (c_refs k - 1))
     | None =>
         pools (released c h) = pools h
         /\ containers (released c h) !! id
            = if (c_refs k =? 2)%nat then None
              else Some (mkContainer (c_base k) (c_size k) (c_refs k - 2))
     end.
Proof.
  intros Hi Hr Hone Hbuf Hid Hk Htwo.
  destruct (c_refs k) as [|[|n]] eqn:Hn; [lia|lia|].
  set (h1 := with_managed h (delete i (managed h))).
  assert (Hk1 : containers h1 !! id = Some k) by exact Hk.
  unfold released, BufferChunk.destroy, bind.
  destruct (pools h !! mi_pool r) as [free|] eqn:Hpool.
  - assert (E : ManagedBuffer.release (BufferChunk._managedBuffer c) h
                = (Returned tt,
                   with_pools h1 (<[mi_pool r := mi_buffer r :: free]> (pools h)))).
    { unfold ManagedBuffer.release. by rewrite Hi, Hr, Hone, Hpool. }
    rewrite E. cbv beta iota.
    rewrite (SharedBuffer_release_live (BufferChunk._buffer c)
               (with_pools h1 (<[mi_pool r := mi_buffer r :: free]> (pools h)))
               id k n Hid Hk Hn).
    cbn [snd containers managed pools with_containers with_managed with_pools h1].
    rewrite lookup_delete_eq, !lookup_insert_eq.
    split; [reflexivity|]. split; [reflexivity|].
    repeat f_equal; lia.
  - assert (E : ManagedBuffer.release (BufferChunk._managedBuffer c) h
                = SharedBufferOps.release (BufferChunk._buffer c) h1).
    { unfold ManagedBuffer.release. by rewrite Hi, Hr, Hone, Hpool, Hbuf. }
    rewrite E, (SharedBuffer_release_live (BufferChunk._buffer c) h1 id k n Hid Hk1 Hn).
    cbv beta iota.
    set (h2 := with_containers h1 _).
    assert (Hk2 : containers h2 !! id = Some (mkContainer (c_base k) (c_size k) (S n)))
      by apply lookup_insert_eq.
    destruct n as [|m].
    + rewrite (SharedBuffer_release_last (BufferChunk._buffer c) h2 id _ Hid Hk2 eq_refl).
      cbn [snd containers managed pools with_containers with_managed with_pools h1 h2
           Nat.eqb].
      by rewrite !lookup_delete_eq.
    + rewrite (SharedBuffer_release_live (BufferChunk._buffer c) h2 id _ m Hid Hk2 eq_refl).
      cbn [snd containers managed pools with_containers with_managed with_pools h1 h2
           Nat.eqb c_base c_size].
      rewrite lookup_delete_eq, lookup_insert_eq.
      split; [reflexivity|]. split; [reflexivity|].
      repeat f_equal; lia.
Qed.

(** C7 as stated fails once the pool is gone: the chunk built from the
    pooled buffer of a torn-down pool, released as the last owner,
    deallocates the buffer directly; no free list receives it. *)
Lemma pooled_chunk_of_dead_pool_is_deallocated :
  pools orphan_heap !! mi_pool pooled_record = None
  /\ fst (BufferChunk.ctor_managed pooled_buffer orphan_heap)
     = Returned (BufferChunk.mk 4096 64 (SharedBuffer.mk 4096 64 (Some 0%nat))
                   pooled_buffer)
  /\ containers (snd (BufferChunk.ctor_managed pooled_buffer orphan_heap)) !! 0%nat
     = Some (mkContainer 4096 64 2)
  /\ containers
       (released (BufferChunk.mk 4096 64 (SharedBuffer.mk 4096 64 (Some 0%nat))
                    pooled_buffer)
          (snd (ManagedBuffer.release pooled_buffer
                  (snd (BufferChunk.ctor_managed pooled_buffer orphan_heap)))))
       !! 0%nat = None
  /\ pools
       (released (BufferChunk.mk 4096 64 (SharedBuffer.mk 4096 64 (Some 0%nat))
                    pooled_buffer)
          (snd (ManagedBuffer.release pooled_buffer
                  (snd (BufferChunk.ctor_managed pooled_buffer orphan_heap)))))
     = ∅.
Proof.
  split; [by vm_compute|]. split; [by vm_compute|]. split; [by vm_compute|].
  split; by vm_compute.
Qed.

(** C7, amended: a chunk built from a shared buffer holds that buffer as
    one more owner, with the buffer's address and length.  A chunk built
    from a managed buffer holds the managed buffer as one more owner,
    together with the shared buffer it wraps, whose address and length it
    takes.  When a chunk holding the last handle on a managed buffer is
    released while the issuing pool is alive, the buffer goes onto the
    pool's free list and stays allocated; once the pool is torn down,
    that release deallocates directly. *)
Theorem adopting_ctors_share_ownership (h : Heap)
    (buffer : SharedBuffer.t) (mbuffer : ManagedBuffer.t) :
  (exists (c : BufferChunk.t) (h1 : Heap),
     BufferChunk.ctor_shared buffer h = (Returned c, h1)
     /\ BufferChunk.address c = SharedBuffer.getAddress buffer
     /\ BufferChunk.length c = SharedBuffer.getLength buffer
     /\ BufferChunk._buffer c = buffer
     /\ BufferChunk._managedBuffer c = ManagedBuffer.null
     /\ (forall id : nat, SharedBuffer.container buffer = Some id ->
           containers h1 !! id = one_more_owner <$> containers h !! id)
     /\ managed h1 = managed h /\ pools h1 = pools h)
  /\ (exists (c : BufferChunk.t) (h1 : Heap),
        BufferChunk.ctor_managed mbuffer h = (Returned c, h1)
        /\ BufferChunk.address c
           = SharedBuffer.getAddress (ManagedBuffer.getBuffer mbuffer h)
        /\ BufferChunk.length c
           = SharedBuffer.getLength (ManagedBuffer.getBuffer mbuffer h)
        /\ BufferChunk._buffer c = ManagedBuffer.getBuffer mbuffer h
        /\ BufferChunk._managedBuffer c = mbuffer
        /\ (forall i : nat, ManagedBuffer.impl mbuffer = Some i ->
              managed h1 !! i = one_more_handle <$> managed h !! i)
        /\ (forall id : nat,
              SharedBuffer.container (ManagedBuffer.getBuffer mbuffer h) = Some id ->
              containers h1 !! id = one_more_owner <$> containers h !! id)
        /\ pools h1 = pools h)
  /\ (forall (c : BufferChunk.t) (h' : Heap) (i : nat) (r : ManagedImpl)
             (id : nat) (k : Container),
        ManagedBuffer.impl (BufferChunk._managedBuffer c) = Some i ->
        managed h' !! i = Some r ->
        mi_refs r = 1%nat ->
        BufferChunk._buffer c = mi_buffer r ->
        SharedBuffer.container (BufferChunk._buffer c) = Some id ->
        containers h' !! id = Some k ->
        (2 <= c_refs k)%nat ->
        managed (released c h') !! i = None
        /\ match pools h' !! mi_pool r with
           | Some free =>
               pools (released c h') !! mi_pool r = Some (mi_buffer r :: free)
               /\ containers (released c h') !! id
                  = Some (mkContainer (c_base k) (c_size k) (c_refs k - 1))
           | None =>
               pools (released c h') = pools h'
               /\ containers (released c h') !! id
                  = if (c_refs k =? 2)%nat then None
                    else Some (mkContainer (c_base k) (c_size k) (c_refs k - 2))
           end).
Proof.
  split; [|split].
  - eexists _, _. split; [apply ctor_shared_returns|].
    do 4 (split; [reflexivity|]).
    split; [intros id Hid; by apply copy_counts|apply copy_frame].
  - eexists _, _. split; [apply ctor_managed_returns|].
    do 4 (split; [reflexivity|]).
    destruct (managed_copy_frame mbuffer
                (snd (SharedBufferOps.copy (ManagedBuffer.getBuffer mbuffer h) h)))
      as [Hc Hp].
    destruct (copy_frame (ManagedBuffer.getBuffer mbuffer h) h) as [Hm0 Hp0].
    split; [|split].
    + intros i Hi. by rewrite (managed_copy_handles _ _ i Hi), Hm0.
    + intros id Hid. by rewrite Hc, (copy_counts _ _ id Hid).
    + by rewrite Hp, Hp0.
  - intros c h' i r id k. apply released_last_managed_owner.
Qed.

Lemma adopting_ctors_share_ownership_witness :
  let c := BufferChunk.mk 4096 64 (SharedBuffer.mk 4096 64 (Some 0%nat)) pooled_buffer in
  let h1 := snd (BufferChunk.ctor_managed pooled_buffer pooled_heap) in
  let h2 := snd (ManagedBuffer.release pooled_buffer h1) in
  BufferChunk.ctor_managed pooled_buffer pooled_heap = (Returned c, h1)
  /\ ManagedBuffer.impl (BufferChunk._managedBuffer c) = Some 0%nat
  /\ managed h2 !! 0%nat = Some pooled_record
  /\ mi_refs pooled_record = 1%nat
  /\ BufferChunk._buffer c = mi_buffer pooled_record
  /\ SharedBuffer.container (BufferChunk._buffer c) = Some 0%nat
  /\ containers h2 !! 0%nat = Some (mkContainer 4096 64 2)
  /\ pools h2 !! mi_pool pooled_record = Some []
  /\ pools (released c h2) !! 7%nat = Some [SharedBuffer.mk 4096 64 (Some 0%nat)]
  /\ containers (released c h2) !! 0%nat = Some (mkContainer 4096 64 1).
Proof.
  intros c h1 h2.
  assert (H0 : BufferChunk.ctor_managed pooled_buffer pooled_heap = (Returned c, h1))
    by reflexivity.
  assert (H1 : ManagedBuffer.impl (BufferChunk._managedBuffer c) = Some 0%nat)
    by reflexivity.
  assert (H2 : managed h2 !! 0%nat = Some pooled_record) by (vm_compute; reflexivity).
  assert (H3 : mi_refs pooled_record = 1%nat) by reflexivity.
  assert (H4 : BufferChunk._buffer c = mi_buffer pooled_record) by reflexivity.
  assert (H5 : SharedBuffer.container (BufferChunk._buffer c) = Some 0%nat)
    by reflexivity.
  assert (H6 : containers h2 !! 0%nat = Some (mkContainer 4096 64 2))
    by (vm_compute; reflexivity).
  assert (H7 : pools h2 !! mi_pool pooled_record = Some []) by (vm_compute; reflexivity).
  do 8 (split; [assumption|]).
  destruct (adopting_ctors_share_ownership pooled_heap plain_buffer pooled_buffer)
    as (_ & _ & Hrel).
  destruct (Hrel c h2 0%nat pooled_record 0%nat (mkContainer 4096 64 2)
              H1 H2 H3 H4 H5 H6 (le_n 2)) as (_ & Hlast).
  rewrite H7 in Hlast. exact Hlast.
Defined.

(** C9: the class registered as "Pothos/BufferChunk" offers the
    zero-argument constructor, which yields the null chunk and leaves the
    heap alone; the constructor taking one size, which yields a chunk of
    that length on a new allocation of that size that it alone owns;
    and the fields "address" and "length" by name, for reading: the
    access yields the member and leaves the object as it was.  No other
    constructor and no other name, the two ownership handles included,
    is reachable through it. *)
Theorem reflection_surface :
  ManagedClass.path managedBufferChunk = Some "Pothos/BufferChunk"
  /\ ManagedClass.constructorSignatures managedBufferChunk
     = [[]; [ManagedClass.arg_size_t]]
  /\ ManagedClass.fieldNames managedBufferChunk = ["address"; "length"]
  /\ (exists f, ManagedClass.construct managedBufferChunk [] = Some f
                /\ forall (place : Allocator) (h : Heap),
                     exists c : BufferChunk.t,
                       f place h = (Returned c, h)
                       /\ BufferChunk.address c = 0 /\ BufferChunk.length c = 0
                       /\ BufferChunk.null c = true /\ BufferChunk.owns c = false)
  /\ (forall numBytes : Z,
        exists f, ManagedClass.construct managedBufferChunk [numBytes] = Some f
                  /\ forall (place : Allocator) (h : Heap),
                       match place h numBytes with
                       | Some a =>
                           exists (c : BufferChunk.t) (h' : Heap),
                             f place h = (Returned c, h')
                             /\ BufferChunk.length c = numBytes
                             /\ BufferChunk.address c = a
                             /\ SharedBuffer.container (BufferChunk._buffer c)
                                = Some (next_container h)
                             /\ containers h'
                                = <[next_container h := mkContainer a numBytes 1]>
                                    (containers h)
                             /\ requests h' = numBytes :: requests h
                       | None => fst (f place h) = Thrown OutOfMemoryException
                       end)
  /\ (forall (x y : Z) (more : list Z),
        ManagedClass.construct managedBufferChunk (x :: y :: more) = None)
  /\ (forall (name : string) (c : BufferChunk.t),
        ManagedClass.callField managedBufferChunk name c
        = if String.eqb name "address" then Some (BufferChunk.address c, c)
          else if String.eqb name "length" then Some (BufferChunk.length c, c)
          else None)
  /\ (forall c : BufferChunk.t,
        ManagedClass.getField managedBufferChunk "address" c = Some (BufferChunk.address c)
        /\ ManagedClass.getField managedBufferChunk "length" c = Some (BufferChunk.length c)
        /\ ManagedClass.getField managedBufferChunk "_buffer" c = None
        /\ ManagedClass.getField managedBufferChunk "_managedBuffer" c = None).
Proof.
  split; [reflexivity|]. split; [reflexivity|]. split; [reflexivity|].
  split.
  { eexists. split; [reflexivity|]. intros place h. by exists BufferChunk.ctor. }
  split.
  { intros numBytes. eexists. split; [reflexivity|]. intros place h. cbv beta.
    destruct (place h numBytes) as [a|] eqn:Hp.
    - exists (sized_chunk h a numBytes), (allocated_heap h a numBytes).
      split; [by apply ctor_size_placed|]. by repeat split.
    - by rewrite (ctor_size_refused _ _ _ Hp). }
  split; [reflexivity|].
  split; [|intros c; by repeat split].
  intros name c. unfold ManagedClass.callField, managedBufferChunk.
  cbn [ManagedClass.fields ManagedClass.commit ManagedClass.registerField
       ManagedClass.registerConstructor ManagedClass.empty app find fst snd].
  rewrite (String.eqb_sym "address" name), (String.eqb_sym "length" name).
  destruct (String.eqb name "address"); [reflexivity|].
  destruct (String.eqb name "length"); reflexivity.
Qed.

(** * Further properties of the code *)

(** ** Exception.hpp: the class hierarchy *)

Lemma all_classes_complete (c : ExceptionClass) : In c all_classes.
Proof. destruct c; cbn; tauto. Qed.

(** A property checked on every class holds of every class. *)
Lemma for_all_classes (P : ExceptionClass -> bool) :
  forallb P all_classes = true -> forall c, P c = true.
Proof.
  intros H c. rewrite forallb_forall in H. apply H, all_classes_complete.
Qed.

Lemma same_class_true c d : same_class c d = true <-> c = d.
Proof. unfold same_class. case_decide; split; congruence. Qed.

Lemma is_a_within_derives n c a : is_a_within n c a = true -> derives c a.
Proof.
  revert c. induction n as [|n IH]; intros c; cbn [is_a_within];
    rewrite orb_true_iff, same_class_true; intros [->|H];
    try apply derives_self; destruct (base_class c) as [b|] eqn:Hb; try discriminate H.
  eapply derives_base; [exact Hb | by apply IH].
Qed.

(** One step down the hierarchy keeps the four-level walk sufficient. *)
Lemma is_a_step c b a :
  base_class c = Some b -> is_a b a = true -> is_a c a = true.
Proof.
  intros Hb Hba.
  assert (Hall : forallb (fun c => forallb (fun a =>
            match base_class c with
            | Some b => implb (is_a b a) (is_a c a)
            | None => true
            end) all_classes) all_classes = true) by (vm_compute; reflexivity).
  pose proof (for_all_classes _ Hall c) as Hc. cbn beta in Hc.
  pose proof (for_all_classes _ Hc a) as Hca. cbn beta in Hca.
  rewrite Hb, Hba in Hca. exact Hca.
Qed.

(** X1: the bounded test [is_a], which walks at most four bases up, decides
    the derived-from relation of the declarations: it answers true exactly
    when the second class is the first or one of its direct or indirect
    bases. *)
Theorem is_a_decides_derives (c a : ExceptionClass) :
  is_a c a = true <-> derives c a.
Proof.
  split.
  - apply is_a_within_derives.
  - induction 1 as [c|c b a Hb _ IH].
    + unfold is_a. cbn [is_a_within]. apply orb_true_iff. left. by apply same_class_true.
    + by apply (is_a_step c b a).
Qed.

(** X2: every class that Exception.hpp declares derives from
    [Pothos::Exception]: a handler for the root catches them all. *)
Theorem every_class_is_an_Exception (c : ExceptionClass) :
  is_a c Exception = true.
Proof.
  apply (for_all_classes (fun c => is_a c Exception)). vm_compute. reflexivity.
Qed.

(** X3: the derived-from test is transitive: what is caught as [d], and
    [d] as [e], is caught as [e]. *)
Theorem is_a_transitive (c d e : ExceptionClass) :
  is_a c d = true -> is_a d e = true -> is_a c e = true.
Proof.
  intros Hcd Hde.
  assert (Hall : forallb (fun c => forallb (fun d => forallb (fun e =>
            implb (is_a c d && is_a d e) (is_a c e))
            all_classes) all_classes) all_classes = true) by (vm_compute; reflexivity).
  pose proof (for_all_classes _ Hall c) as H1. cbn beta in H1.
  pose proof (for_all_classes _ H1 d) as H2. cbn beta in H2.
  pose proof (for_all_classes _ H2 e) as H3. cbn beta in H3.
  rewrite Hcd, Hde in H3. exact H3.
Qed.

Lemma is_a_transitive_witness :
  is_a FileNotFoundException IOException = true
  /\ is_a IOException RuntimeException = true
  /\ is_a FileNotFoundException RuntimeException = true.
Proof.
  split; [reflexivity|]. split; [reflexivity|].
  apply (is_a_transitive FileNotFoundException IOException RuntimeException);
    reflexivity.
Defined.

(** X4: the hierarchy has no cycle: two classes each derived from the
    other are the same class. *)
Theorem is_a_antisymmetric (c d : ExceptionClass) :
  is_a c d = true -> is_a d c = true -> c = d.
Proof.
  intros Hcd Hdc.
  assert (Hall : forallb (fun c => forallb (fun d =>
            implb (is_a c d && is_a d c) (same_class c d))
            all_classes) all_classes = true) by (vm_compute; reflexivity).
  pose proof (for_all_classes _ Hall c) as H1. cbn beta in H1.
  pose proof (for_all_classes _ H1 d) as H2. cbn beta in H2.
  rewrite Hcd, Hdc in H2. by apply same_class_true.
Qed.

Lemma is_a_antisymmetric_witness :
  is_a DataException DataException = true
  /\ DataException = DataException.
Proof.
  split; [reflexivity|].
  apply (is_a_antisymmetric DataException DataException); reflexivity.
Defined.

(** X5: below the root the classes fall into three families that do not
    overlap: every class other than [Exception] is a LogicException, a
    RuntimeException or an ApplicationException, and exactly one of
    these; a handler for one family never catches a class of another. *)
Theorem exception_families_partition (c : ExceptionClass) :
  c = Exception
  \/ (is_a c LogicException = true /\ is_a c RuntimeException = false
      /\ is_a c ApplicationException = false)
  \/ (is_a c LogicException = false /\ is_a c RuntimeException = true
      /\ is_a c ApplicationException = false)
  \/ (is_a c LogicException = false /\ is_a c RuntimeException = false
      /\ is_a c ApplicationException = true).
Proof.
  destruct c; vm_compute; tauto.
Qed.

(** ** What the releases leave alone *)

Lemma SharedBuffer_release_frame b h :
  let h' := snd (SharedBufferOps.release b h) in
  bytes h' = bytes h /\ requests h' = requests h
  /\ next_container h' = next_container h
  /\ managed h' = managed h /\ pools h' = pools h.
Proof.
  unfold SharedBufferOps.release.
  destruct (SharedBuffer.container b) as [id|]; [|done].
  destruct (containers h !! id) as [c|]; [|done].
  by destruct (c_refs c) as [|[|n]].
Qed.

Lemma ManagedBuffer_release_frame b h :
  let h' := snd (ManagedBuffer.release b h) in
  bytes h' = bytes h /\ requests h' = requests h
  /\ next_container h' = next_container h.
Proof.
  unfold ManagedBuffer.release.
  destruct (ManagedBuffer.impl b) as [i|]; [|done].
  destruct (managed h !! i) as [r|]; [|done].
  destruct (mi_refs r) as [|[|n]]; [| |done];
    (destruct (pools h !! mi_pool r); [done|];
     destruct (SharedBuffer_release_frame (mi_buffer r)
                 (with_managed h (delete i (managed h)))) as (H1 & H2 & H3 & _);
     cbv zeta in *; by rewrite H1, H2, H3).
Qed.

Lemma released_frame c h :
  bytes (released c h) = bytes h /\ requests (released c h) = requests h
  /\ next_container (released c h) = next_container h.
Proof.
  unfold released, BufferChunk.destroy, bind.
  pose proof (ManagedBuffer_release_returns (BufferChunk._managedBuffer c) h) as R1.
  destruct (ManagedBuffer_release_frame (BufferChunk._managedBuffer c) h) as (A1 & A2 & A3).
  destruct (ManagedBuffer.release (BufferChunk._managedBuffer c) h) as [r1 h1].
  cbn [fst snd] in *. subst r1.
  destruct (SharedBuffer_release_frame (BufferChunk._buffer c) h1) as (B1 & B2 & B3 & _).
  cbv zeta in *. by rewrite B1, B2, B3, A1, A2, A3.
Qed.

(** ** Memory outside a write *)

Lemma mem_write_outside m p bs x :
  x < p \/ p + Z.of_nat (List.length bs) <= x -> mem_write m p bs x = m x.
Proof.
  intros Hx. unfold mem_write.
  destruct (p <=? x) eqn:E1; [|done].
  destruct (x <? p + Z.of_nat (List.length bs)) eqn:E2; [|done].
  apply Z.leb_le in E1. apply Z.ltb_lt in E2. lia.
Qed.

Lemma mem_read_write_disjoint m p bs q n :
  q + Z.of_nat n <= p \/ p + Z.of_nat (List.length bs) <= q ->
  mem_read (mem_write m p bs) q n = mem_read m q n.
Proof.
  intros Hd. unfold mem_read. apply map_ext_in. intros i Hi.
  apply in_seq in Hi. apply mem_write_outside. lia.
Qed.

(** ** [save] and [load] on a shared archive *)

Lemma save_returns h c out :
  Serialization.save h c out = (Returned tt, out ++ Serialization.serialize h c).
Proof.
  unfold Serialization.serialize, Serialization.save, bind,
    Archive.write_bool, Archive.write_UInt32, Archive.write_binary, modify, ret.
  destruct (BufferChunk.null c); cbn -[payload Archive.encode_UInt32 to_UInt32 app].
  - reflexivity.
  - by rewrite <- !app_assoc.
Qed.

(** What [load] does with the stream of a chunk that is not null, whatever
    follows it and whatever the length: it reads back the length field,
    that is the length modulo 2^32, and that many payload bytes. *)
Lemma load_after_save place h g c t0 rest a :
  BufferChunk.null c = false ->
  0 <= BufferChunk.length c ->
  place (released t0 g) (to_UInt32 (BufferChunk.length c)) = Some a ->
  let k := Z.to_nat (to_UInt32 (BufferChunk.length c)) in
  let data := payload h (BufferChunk.address c) (BufferChunk.length c) in
  Serialization.load place
    (Serialization.mkFrame (Serialization.serialize h c ++ rest) t0 g)
  = (Returned tt,
     Serialization.mkFrame (drop k data ++ rest)
       (sized_chunk (released t0 g) a (to_UInt32 (BufferChunk.length c)))
       (loaded_heap (released t0 g) a (to_UInt32 (BufferChunk.length c)) (take k data))).
Proof.
  intros Hn Hpos Hp k data.
  rewrite (serialize_not_null h c Hn). fold data.
  cbn [Archive.encode_UInt32 app].
  pose proof (to_UInt32_range (BufferChunk.length c)) as Hr.
  pose proof (decode_encode_bytes _ Hr) as Hdec.
  assert (Hk : (k <= List.length data)%nat).
  { unfold data. rewrite length_payload. unfold k, to_UInt32, UInt32_modulus.
    apply Z2Nat.inj_le; [apply Z.mod_pos_bound; lia | lia |].
    apply Z.mod_le; lia. }
  rewrite (load_placed place t0 g x00 _ _ _ _ (data ++ rest) eq_refl a);
    rewrite Hdec; fold k.
  - by rewrite take_app_le, drop_app_le by exact Hk.
  - exact Hp.
  - rewrite length_app. lia.
Qed.

(** X7: the stream of a null chunk is 1 byte long, that of any other chunk
    5 bytes plus its length, also when the length does not fit the length
    field. *)
Theorem serialized_size (h : Heap) (c : BufferChunk.t) :
  List.length (Serialization.serialize h c)
  = if BufferChunk.null c then 1%nat else (5 + Z.to_nat (BufferChunk.length c))%nat.
Proof.
  destruct (BufferChunk.null c) eqn:Hn.
  - by rewrite serialize_null.
  - rewrite serialize_not_null by done.
    cbn [Archive.encode_UInt32 app List.length]. by rewrite length_payload.
Qed.

(** X8: the format is self-delimiting below 2^32 bytes: [load], given the
    stream of a chunk followed by any other bytes, into any destination,
    returns with exactly those other bytes left in the archive and with
    the chunk's length and payload in the destination. *)
Theorem load_leaves_what_follows (place : Allocator) (h g : Heap)
    (c t0 : BufferChunk.t) (rest : list byte) (a : Z) :
  BufferChunk.null c = false ->
  is_UInt32 (BufferChunk.length c) ->
  place (released t0 g) (BufferChunk.length c) = Some a ->
  let r := Serialization.load place
             (Serialization.mkFrame (Serialization.serialize h c ++ rest) t0 g) in
  fst r = Returned tt
  /\ Serialization.ar (snd r) = rest
  /\ BufferChunk.length (Serialization.t (snd r)) = BufferChunk.length c
  /\ payload (Serialization.heap (snd r))
             (BufferChunk.address (Serialization.t (snd r)))
             (BufferChunk.length (Serialization.t (snd r)))
     = payload h (BufferChunk.address c) (BufferChunk.length c).
Proof.
  intros Hn Hlen Hp r. subst r.
  pose proof (to_UInt32_small _ Hlen) as Hs.
  rewrite (load_after_save place h g c t0 rest a Hn);
    [| unfold is_UInt32 in Hlen; lia | by rewrite Hs].
  rewrite Hs. cbn [fst snd Serialization.ar Serialization.t Serialization.heap
                   sized_chunk BufferChunk.length BufferChunk.address].
  assert (Hl : List.length (payload h (BufferChunk.address c) (BufferChunk.length c))
               = Z.to_nat (BufferChunk.length c)) by apply length_payload.
  rewrite drop_ge, take_ge by lia.
  split; [reflexivity|]. split; [reflexivity|]. split; [reflexivity|].
  by apply payload_loaded.
Qed.

Lemma load_leaves_what_follows_witness :
  BufferChunk.null chunk16 = false
  /\ is_UInt32 (BufferChunk.length chunk16)
  /\ small_place (released BufferChunk.ctor heap16) (BufferChunk.length chunk16) = Some 4160
  /\ Serialization.ar
       (snd (Serialization.load small_place
               (Serialization.mkFrame
                  (Serialization.serialize heap16 chunk16 ++ [x01; xff])
                  BufferChunk.ctor heap16)))
     = [x01; xff].
Proof.
  assert (H1 : BufferChunk.null chunk16 = false) by reflexivity.
  assert (H2 : is_UInt32 (BufferChunk.length chunk16)) by (vm_compute; split; congruence).
  assert (H3 : small_place (released BufferChunk.ctor heap16) (BufferChunk.length chunk16)
               = Some 4160) by reflexivity.
  split; [exact H1|]. split; [exact H2|]. split; [exact H3|].
  destruct (load_leaves_what_follows small_place heap16 heap16 chunk16 BufferChunk.ctor
              [x01; xff] 4160 H1 H2 H3) as (_ & Har & _).
  exact Har.
Defined.

(** X9: for a chunk of 2^32 bytes or more, [load] reads back less than
    [save] wrote: it returns a chunk of length L mod 2^32 holding the
    first L mod 2^32 payload bytes, and leaves the other payload bytes, at
    least 2^32 of them, in the archive in front of whatever followed the
    chunk. *)
Theorem long_chunk_leaves_payload_unread (place : Allocator) (h g : Heap)
    (c t0 : BufferChunk.t) (rest : list byte) (a : Z) :
  BufferChunk.null c = false ->
  UInt32_modulus <= BufferChunk.length c ->
  place (released t0 g) (BufferChunk.length c mod 2 ^ 32) = Some a ->
  let L := BufferChunk.length c in
  let data := payload h (BufferChunk.address c) L in
  let r := Serialization.load place
             (Serialization.mkFrame (Serialization.serialize h c ++ rest) t0 g) in
  fst r = Returned tt
  /\ BufferChunk.length (Serialization.t (snd r)) = L mod 2 ^ 32
  /\ payload (Serialization.heap (snd r))
             (BufferChunk.address (Serialization.t (snd r)))
             (BufferChunk.length (Serialization.t (snd r)))
     = take (Z.to_nat (L mod 2 ^ 32)) data
  /\ Serialization.ar (snd r) = drop (Z.to_nat (L mod 2 ^ 32)) data ++ rest
  /\ Z.of_nat (List.length (drop (Z.to_nat (L mod 2 ^ 32)) data)) = L - L mod 2 ^ 32
  /\ 2 ^ 32 <= L - L mod 2 ^ 32.
Proof.
  intros Hn Hlong Hp L data r. subst r.
  unfold UInt32_modulus in Hlong. fold L in Hlong, Hp.
  assert (Hm : 0 <= L mod 2 ^ 32 < 2 ^ 32) by (apply Z.mod_pos_bound; lia).
  rewrite (load_after_save place h g c t0 rest a Hn); [| fold L; lia | exact Hp].
  fold L data. change (to_UInt32 L) with (L mod 2 ^ 32).
  cbn [fst snd Serialization.ar Serialization.t Serialization.heap
       sized_chunk BufferChunk.length BufferChunk.address].
  assert (Hl : List.length data = Z.to_nat L) by apply length_payload.
  split; [reflexivity|]. split; [reflexivity|].
  split; [apply payload_loaded; rewrite length_take; lia|].
  split; [reflexivity|].
  rewrite length_drop, Hl.
  assert (L mod 2 ^ 32 <= L) by (apply Z.mod_le; lia).
  split; [lia|].
  pose proof (Z.div_mod L (2 ^ 32) ltac:(lia)) as Hdm.
  assert (1 <= L / 2 ^ 32) by (apply Z.div_le_lower_bound; lia).
  nia.
Qed.

Lemma long_chunk_leaves_payload_unread_witness :
  BufferChunk.null huge_chunk = false
  /\ UInt32_modulus <= BufferChunk.length huge_chunk
  /\ huge_place (released BufferChunk.ctor huge_heap)
       (BufferChunk.length huge_chunk mod 2 ^ 32) = Some 8589938688
  /\ BufferChunk.length
       (Serialization.t
          (snd (Serialization.load huge_place
                  (Serialization.mkFrame
                     (Serialization.serialize huge_heap huge_chunk ++ [x01])
                     BufferChunk.ctor huge_heap))))
     = BufferChunk.length huge_chunk mod 2 ^ 32.
Proof.
  assert (H1 : BufferChunk.null huge_chunk = false) by reflexivity.
  assert (H2 : UInt32_modulus <= BufferChunk.length huge_chunk)
    by (vm_compute; congruence).
  assert (H3 : huge_place (released BufferChunk.ctor huge_heap)
                 (BufferChunk.length huge_chunk mod 2 ^ 32) = Some 8589938688)
    by reflexivity.
  split; [exact H1|]. split; [exact H2|]. split; [exact H3|].
  destruct (long_chunk_leaves_payload_unread huge_place huge_heap huge_heap huge_chunk
              BufferChunk.ctor [x01] 8589938688 H1 H2 H3) as (_ & Hlen & _).
  exact Hlen.
Defined.

(** X10: two chunks saved one after the other onto one archive are read
    back by two [load]s in the same order, each with its length and
    payload, and what followed them is left in the archive; the second
    [load] leaves the first chunk's bytes alone when the allocator placed
    the two regions apart. *)
Theorem two_chunks_in_sequence (place : Allocator) (h g : Heap)
    (c1 c2 : BufferChunk.t) (rest : list byte) (a1 a2 : Z) :
  BufferChunk.null c1 = false ->
  BufferChunk.null c2 = false ->
  is_UInt32 (BufferChunk.length c1) ->
  is_UInt32 (BufferChunk.length c2) ->
  place g (BufferChunk.length c1) = Some a1 ->
  place (loaded_heap g a1 (BufferChunk.length c1)
           (payload h (BufferChunk.address c1) (BufferChunk.length c1)))
        (BufferChunk.length c2) = Some a2 ->
  a1 + BufferChunk.length c1 <= a2 \/ a2 + BufferChunk.length c2 <= a1 ->
  let written := snd (Serialization.save h c2 (snd (Serialization.save h c1 []))) in
  let r1 := Serialization.load place
              (Serialization.mkFrame (written ++ rest) BufferChunk.ctor g) in
  let r2 := Serialization.load place
              (Serialization.mkFrame (Serialization.ar (snd r1)) BufferChunk.ctor
                 (Serialization.heap (snd r1))) in
  fst r1 = Returned tt /\ fst r2 = Returned tt
  /\ Serialization.ar (snd r2) = rest
  /\ BufferChunk.length (Serialization.t (snd r1)) = BufferChunk.length c1
  /\ BufferChunk.length (Serialization.t (snd r2)) = BufferChunk.length c2
  /\ payload (Serialization.heap (snd r2))
             (BufferChunk.address (Serialization.t (snd r1))) (BufferChunk.length c1)
     = payload h (BufferChunk.address c1) (BufferChunk.length c1)
  /\ payload (Serialization.heap (snd r2))
             (BufferChunk.address (Serialization.t (snd r2))) (BufferChunk.length c2)
     = payload h (BufferChunk.address c2) (BufferChunk.length c2).
Proof.
  intros Hn1 Hn2 Hl1 Hl2 Hp1 Hp2 Hapart written r1 r2.
  pose proof (length_payload h (BufferChunk.address c1) (BufferChunk.length c1)) as Hlp1.
  pose proof (length_payload h (BufferChunk.address c2) (BufferChunk.length c2)) as Hlp2.
  pose proof (to_UInt32_small _ Hl1) as Hs1. pose proof (to_UInt32_small _ Hl2) as Hs2.
  assert (Hw : written = Serialization.serialize h c1 ++ Serialization.serialize h c2).
  { unfold written. by rewrite !save_returns. }
  assert (E1 : r1 = (Returned tt,
                     Serialization.mkFrame (Serialization.serialize h c2 ++ rest)
                       (sized_chunk g a1 (BufferChunk.length c1))
                       (loaded_heap g a1 (BufferChunk.length c1)
                          (payload h (BufferChunk.address c1) (BufferChunk.length c1))))).
  { unfold r1. rewrite Hw, <- app_assoc.
    rewrite (load_after_save place h g c1 BufferChunk.ctor _ a1 Hn1);
      [| unfold is_UInt32 in Hl1; lia | by rewrite Hs1].
    rewrite Hs1. by rewrite drop_ge, take_ge by lia. }
  assert (E2 : r2 = (Returned tt,
                     Serialization.mkFrame rest
                       (sized_chunk
                          (loaded_heap g a1 (BufferChunk.length c1)
                             (payload h (BufferChunk.address c1) (BufferChunk.length c1)))
                          a2 (BufferChunk.length c2))
                       (loaded_heap
                          (loaded_heap g a1 (BufferChunk.length c1)
                             (payload h (BufferChunk.address c1) (BufferChunk.length c1)))
                          a2 (BufferChunk.length c2)
                          (payload h (BufferChunk.address c2) (BufferChunk.length c2))))).
  { unfold r2. rewrite E1. cbn [snd Serialization.ar Serialization.heap].
    rewrite (load_after_save place h _ c2 BufferChunk.ctor rest a2 Hn2);
      [| unfold is_UInt32 in Hl2; lia | by rewrite Hs2].
    rewrite Hs2. by rewrite drop_ge, take_ge, app_nil_l by lia. }
  rewrite E2, E1.
  cbn [fst snd Serialization.ar Serialization.t Serialization.heap
       sized_chunk BufferChunk.length BufferChunk.address].
  split; [reflexivity|]. split; [reflexivity|]. split; [reflexivity|].
  split; [reflexivity|]. split; [reflexivity|].
  split; [|by apply payload_loaded].
  unfold payload at 1. unfold loaded_heap. cbn [bytes with_bytes allocated_heap].
  unfold is_UInt32 in Hl1, Hl2.
  rewrite mem_read_write_disjoint by lia.
  rewrite <- Hlp1. apply mem_read_write.
Qed.

Lemma two_chunks_in_sequence_witness :
  BufferChunk.null chunk16 = false
  /\ is_UInt32 (BufferChunk.length chunk16)
  /\ small_place heap16 (BufferChunk.length chunk16) = Some 4160
  /\ small_place
       (loaded_heap heap16 4160 (BufferChunk.length chunk16)
          (payload heap16 (BufferChunk.address chunk16) (BufferChunk.length chunk16)))
       (BufferChunk.length chunk16) = Some 4224
  /\ (4160 + BufferChunk.length chunk16 <= 4224
      \/ 4224 + BufferChunk.length chunk16 <= 4160)
  /\ Serialization.ar
       (snd (Serialization.load small_place
          (Serialization.mkFrame
             (Serialization.ar
                (snd (Serialization.load small_place
                   (Serialization.mkFrame
                      (snd (Serialization.save heap16 chunk16
                              (snd (Serialization.save heap16 chunk16 []))) ++ [xee])
                      BufferChunk.ctor heap16))))
             BufferChunk.ctor
             (Serialization.heap
                (snd (Serialization.load small_place
                   (Serialization.mkFrame
                      (snd (Serialization.save heap16 chunk16
                              (snd (Serialization.save heap16 chunk16 []))) ++ [xee])
                      BufferChunk.ctor heap16)))))))
     = [xee].
Proof.
  assert (H1 : BufferChunk.null chunk16 = false) by reflexivity.
  assert (H2 : is_UInt32 (BufferChunk.length chunk16)) by (vm_compute; split; congruence).
  assert (H3 : small_place heap16 (BufferChunk.length chunk16) = Some 4160) by reflexivity.
  assert (H4 : small_place
                 (loaded_heap heap16 4160 (BufferChunk.length chunk16)
                    (payload heap16 (BufferChunk.address chunk16)
                       (BufferChunk.length chunk16)))
                 (BufferChunk.length chunk16) = Some 4224) by reflexivity.
  assert (H5 : 4160 + BufferChunk.length chunk16 <= 4224
               \/ 4224 + BufferChunk.length chunk16 <= 4160)
    by (left; vm_compute; congruence).
  split; [exact H1|]. split; [exact H2|]. split; [exact H3|].
  split; [exact H4|]. split; [exact H5|].
  destruct (two_chunks_in_sequence small_place heap16 heap16 chunk16 chunk16 [xee]
              4160 4224 H1 H1 H2 H2 H3 H4 H5) as (_ & _ & Har & _).
  exact Har.
Defined.

(** X11: [load] writes no byte of memory outside the chunk it leaves in
    its destination: whatever the stream and the outcome, an address whose
    content changed lies inside that chunk. *)
Theorem load_writes_inside_its_chunk (place : Allocator)
    (f : Serialization.Frame) (x : Z) :
  let f' := snd (Serialization.load place f) in
  bytes (Serialization.heap f') x = bytes (Serialization.heap f) x
  \/ (BufferChunk.address (Serialization.t f') <= x
      < BufferChunk.address (Serialization.t f')
        + BufferChunk.length (Serialization.t f')).
Proof.
  cbv zeta. rewrite load_closed_form. destruct f as [inp t0 h].
  unfold load_by_cases. cbn [Serialization.ar Serialization.t Serialization.heap].
  destruct (released_frame t0 h) as (Hb & _ & _).
  assert (Hw : forall a n data, (List.length data <= Z.to_nat n)%nat ->
            bytes (loaded_heap (released t0 h) a n data) x = bytes h x
            \/ a <= x < a + n).
  { intros a n data Hlen. unfold loaded_heap. cbn [bytes with_bytes]. rewrite Hb.
    destruct (decide (x < a \/ a + Z.of_nat (List.length data) <= x)) as [Ho|Hi].
    - left. by apply mem_write_outside.
    - right. lia. }
  assert (Hsame : bytes (released t0 h) x = bytes h x) by (by rewrite Hb).
  destruct inp as [|b after_flag]; [by left|].
  destruct (Archive.decode_bool b); [by left|].
  destruct after_flag as [|b0 [|b1 [|b2 [|b3 rest]]]]; try (by left).
  cbv zeta.
  destruct (place (released t0 h) (Archive.decode_UInt32 b0 b1 b2 b3)) as [a|];
    [|by left].
  destruct (Z.to_nat (Archive.decode_UInt32 b0 b1 b2 b3) <=? List.length rest)%nat eqn:E;
    cbn [snd Serialization.heap Serialization.t sized_chunk
         BufferChunk.address BufferChunk.length]; apply Hw.
  - rewrite length_take. lia.
  - apply Nat.leb_gt in E. lia.
Qed.

(** The allocation table once a chunk that owns a plain shared buffer has
    let go of it. *)
Lemma released_plain_chunk c h id k :
  ManagedBuffer.impl (BufferChunk._managedBuffer c) = None ->
  SharedBuffer.container (BufferChunk._buffer c) = Some id ->
  containers h !! id = Some k ->
  containers (released c h)
  = match c_refs k with
    | O | S O => delete id (containers h)
    | S n => <[id := mkContainer (c_base k) (c_size k) n]> (containers h)
    end.
Proof.
  intros Hm Hb Hk. unfold released, BufferChunk.destroy, bind, ManagedBuffer.release.
  rewrite Hm. unfold SharedBufferOps.release. rewrite Hb, Hk.
  by destruct (c_refs k) as [|[|n]].
Qed.

Lemma live_id_below_next h id k :
  fresh_ids h -> containers h !! id = Some k -> (id < next_container h)%nat.
Proof.
  intros Hf Hk. destruct (decide (id < next_container h)%nat) as [|Hge]; [done|].
  rewrite Hf in Hk by lia. discriminate Hk.
Qed.

(** X12: [load] first lets go of what its destination held, on every
    stream and whatever the outcome: the buffer the destination owned has
    lost that owner, and is deallocated if it was the last, before any
    byte is read; afterwards the destination no longer names it. *)
Theorem load_releases_destination (place : Allocator) (stream : list byte)
    (t0 : BufferChunk.t) (h : Heap) (id : nat) (k : Container) :
  fresh_ids h ->
  ManagedBuffer.impl (BufferChunk._managedBuffer t0) = None ->
  SharedBuffer.container (BufferChunk._buffer t0) = Some id ->
  containers h !! id = Some k ->
  let f' := snd (Serialization.load place (Serialization.mkFrame stream t0 h)) in
  containers (Serialization.heap f') !! id
  = match c_refs k with
    | O | S O => None
    | S n => Some (mkContainer (c_base k) (c_size k) n)
    end
  /\ SharedBuffer.container (BufferChunk._buffer (Serialization.t f')) <> Some id.
Proof.
  intros Hf Hm Hb Hk. cbv zeta. rewrite load_closed_form. unfold load_by_cases.
  cbn [Serialization.ar Serialization.t Serialization.heap].
  pose proof (live_id_below_next h id k Hf Hk) as Hlt.
  destruct (released_frame t0 h) as (_ & _ & Hnext).
  assert (H0 : containers (released t0 h) !! id
               = match c_refs k with
                 | O | S O => None
                 | S n => Some (mkContainer (c_base k) (c_size k) n)
                 end).
  { rewrite (released_plain_chunk t0 h id k Hm Hb Hk).
    destruct (c_refs k) as [|[|n]];
      by rewrite ?lookup_delete_eq, ?lookup_insert_eq. }
  assert (Hins : forall a n data,
            containers (loaded_heap (released t0 h) a n data) !! id
            = containers (released t0 h) !! id).
  { intros a n data. unfold loaded_heap. cbn [containers with_bytes allocated_heap].
    rewrite lookup_insert_ne by lia. reflexivity. }
  assert (Hnew : forall a n,
            SharedBuffer.container (BufferChunk._buffer (sized_chunk (released t0 h) a n))
            <> Some id).
  { intros a n. cbn. intros [= E]. lia. }
  destruct stream as [|b after_flag]; [by split|].
  destruct (Archive.decode_bool b); [by split|].
  destruct after_flag as [|b0 [|b1 [|b2 [|b3 rest]]]]; try (by split).
  cbv zeta.
  destruct (place (released t0 h) (Archive.decode_UInt32 b0 b1 b2 b3)) as [a|];
    [|by split].
  destruct (Z.to_nat (Archive.decode_UInt32 b0 b1 b2 b3) <=? List.length rest)%nat;
    cbn [snd Serialization.heap Serialization.t]; (split; [by rewrite Hins | apply Hnew]).
Qed.

Lemma load_releases_destination_witness :
  fresh_ids (allocated_heap empty_heap 4096 16)
  /\ ManagedBuffer.impl (BufferChunk._managedBuffer chunk16) = None
  /\ SharedBuffer.container (BufferChunk._buffer chunk16) = Some 0%nat
  /\ containers (allocated_heap empty_heap 4096 16) !! 0%nat
     = Some (mkContainer 4096 16 1)
  /\ containers
       (Serialization.heap
          (snd (Serialization.load small_place
                  (Serialization.mkFrame [] chunk16 (allocated_heap empty_heap 4096 16)))))
       !! 0%nat = None.
Proof.
  assert (H1 : fresh_ids (allocated_heap empty_heap 4096 16))
    by (apply fresh_ids_allocated, fresh_ids_empty).
  assert (H2 : ManagedBuffer.impl (BufferChunk._managedBuffer chunk16) = None)
    by reflexivity.
  assert (H3 : SharedBuffer.container (BufferChunk._buffer chunk16) = Some 0%nat)
    by reflexivity.
  assert (H4 : containers (allocated_heap empty_heap 4096 16) !! 0%nat
               = Some (mkContainer 4096 16 1)) by (vm_compute; reflexivity).
  split; [exact H1|]. split; [exact H2|]. split; [exact H3|]. split; [exact H4|].
  exact (proj1 (load_releases_destination small_place [] chunk16
                  (allocated_heap empty_heap 4096 16) 0 (mkContainer 4096 16 1)
                  H1 H2 H3 H4)).
Defined.

(** X13: whatever the stream, deserialization accounts for its allocation:
    when it throws, the allocation table is what it was; when it returns
    the null chunk, likewise; otherwise it returns a chunk of fewer than
    2^32 bytes that is the only owner of exactly one new allocation of
    that size. *)
Theorem deserialize_accounts_for_allocation (place : Allocator)
    (stream : list byte) (h : Heap) :
  fresh_ids h ->
  match Serialization.deserialize place stream h with
  | (Thrown _, h') => containers h' = containers h
  | (Returned c, h') =>
      (c = BufferChunk.ctor /\ h' = h)
      \/ exists a n : Z,
           is_UInt32 n /\ c = sized_chunk h a n
           /\ containers h' = <[next_container h := mkContainer a n 1]> (containers h)
  end.
Proof.
  intros Hf. unfold Serialization.deserialize.
  rewrite load_closed_form. unfold load_by_cases.
  cbn [Serialization.ar Serialization.t Serialization.heap].
  rewrite released_ctor.
  destruct stream as [|b after_flag]; [reflexivity|].
  destruct (Archive.decode_bool b); [by left|].
  destruct after_flag as [|b0 [|b1 [|b2 [|b3 rest]]]]; try reflexivity.
  cbv zeta.
  destruct (place h (Archive.decode_UInt32 b0 b1 b2 b3)) as [a|]; [|reflexivity].
  destruct (Z.to_nat (Archive.decode_UInt32 b0 b1 b2 b3) <=? List.length rest)%nat.
  - right. exists a, (Archive.decode_UInt32 b0 b1 b2 b3).
    split; [apply decode_UInt32_range|]. by split.
  - cbn [snd Serialization.t Serialization.heap].
    apply (released_sized_chunk h a _ rest Hf).
Qed.

Lemma deserialize_accounts_for_allocation_witness :
  fresh_ids heap16
  /\ Serialization.deserialize small_place [x00; x02; x00; x00; x00; xaa; xbb] heap16
     = (Returned (sized_chunk heap16 4160 2), loaded_heap heap16 4160 2 [xaa; xbb])
  /\ containers (loaded_heap heap16 4160 2 [xaa; xbb])
     = <[next_container heap16 := mkContainer 4160 2 1]> (containers heap16)
  /\ exists a n : Z,
       is_UInt32 n
       /\ sized_chunk heap16 4160 2 = sized_chunk heap16 a n
       /\ containers (loaded_heap heap16 4160 2 [xaa; xbb])
          = <[next_container heap16 := mkContainer a n 1]> (containers heap16).
Proof.
  assert (H1 : fresh_ids heap16)
    by exact (fresh_ids_allocated empty_heap 4096 16 fresh_ids_empty).
  assert (H2 : Serialization.deserialize small_place
                 [x00; x02; x00; x00; x00; xaa; xbb] heap16
               = (Returned (sized_chunk heap16 4160 2),
                  loaded_heap heap16 4160 2 [xaa; xbb])) by reflexivity.
  split; [exact H1|]. split; [exact H2|]. split; [reflexivity|].
  pose proof (deserialize_accounts_for_allocation small_place
                [x00; x02; x00; x00; x00; xaa; xbb] heap16 H1) as H.
  rewrite H2 in H. destruct H as [[Hnull _]|H]; [discriminate Hnull|exact H].
Defined.

(** X14: deserialization asks the allocator at most once, and then for
    exactly the declared length, as soon as the flag and the four length
    bytes are read and before it looks at the payload; it does not ask at
    all when the stream is empty, the flag is set, or the length field is
    cut short. *)
Theorem deserialize_requests (place : Allocator) (stream : list byte) (h : Heap) :
  requests (snd (Serialization.deserialize place stream h))
  = match stream with
    | b :: b0 :: b1 :: b2 :: b3 :: _ =>
        if Archive.decode_bool b then requests h
        else Archive.decode_UInt32 b0 b1 b2 b3 :: requests h
    | _ => requests h
    end.
Proof.
  unfold Serialization.deserialize.
  rewrite load_closed_form. unfold load_by_cases.
  cbn [Serialization.ar Serialization.t Serialization.heap].
  rewrite released_ctor.
  destruct stream as [|b after_flag]; [reflexivity|].
  destruct (Archive.decode_bool b) eqn:Hb.
  { by destruct after_flag as [|b0 [|b1 [|b2 [|b3 rest]]]]. }
  destruct after_flag as [|b0 [|b1 [|b2 [|b3 rest]]]]; try reflexivity.
  cbv zeta.
  destruct (place h (Archive.decode_UInt32 b0 b1 b2 b3)) as [a|]; [|reflexivity].
  destruct (Z.to_nat (Archive.decode_UInt32 b0 b1 b2 b3) <=? List.length rest)%nat;
    [reflexivity|].
  cbn [snd Serialization.t Serialization.heap].
  destruct (released_frame (sized_chunk h a (Archive.decode_UInt32 b0 b1 b2 b3))
              (loaded_heap h a (Archive.decode_UInt32 b0 b1 b2 b3) rest)) as (_ & Hr & _).
  fold (released (sized_chunk h a (Archive.decode_UInt32 b0 b1 b2 b3))
          (loaded_heap h a (Archive.decode_UInt32 b0 b1 b2 b3) rest)).
  by rewrite Hr.
Qed.

Lemma container_eta k : mkContainer (c_base k) (c_size k) (c_refs k) = k.
Proof. by destruct k. Qed.

Lemma managed_impl_eta r : mkManagedImpl (mi_buffer r) (mi_refs r) (mi_pool r) = r.
Proof. by destruct r. Qed.

Lemma with_containers_id h : with_containers h (containers h) = h.
Proof. by destruct h. Qed.

(** Taking a share of a live allocation and giving it back. *)
Lemma release_after_copy b h id k :
  SharedBuffer.container b = Some id ->
  containers h !! id = Some k -> (1 <= c_refs k)%nat ->
  snd (SharedBufferOps.release b (snd (SharedBufferOps.copy b h))) = h.
Proof.
  intros Hb Hk Hone. unfold SharedBufferOps.release, SharedBufferOps.copy.
  rewrite Hb. cbn [snd containers with_containers].
  rewrite lookup_alter_eq, Hk. cbn [fmap option_fmap option_map c_refs c_base c_size].
  destruct (c_refs k) as [|n] eqn:Hn; [lia|].
  cbn [snd]. unfold with_containers at 1. cbn [bytes containers next_container managed pools requests with_containers].
  rewrite insert_alter_eq, <- Hn, container_eta, (insert_id _ _ _ Hk).
  by destruct h.
Qed.

(** X15: a chunk built from a live shared buffer and destroyed again
    leaves the heap exactly as it was: the count it added is the count it
    gives back, nothing is allocated and nothing is freed. *)
Theorem temporary_shared_chunk_is_balanced (h : Heap) (buffer : SharedBuffer.t)
    (id : nat) (k : Container) :
  SharedBuffer.container buffer = Some id ->
  containers h !! id = Some k ->
  (1 <= c_refs k)%nat ->
  exists (c : BufferChunk.t) (h1 : Heap),
    BufferChunk.ctor_shared buffer h = (Returned c, h1)
    /\ containers h1 !! id = Some (mkContainer (c_base k) (c_size k) (S (c_refs k)))
    /\ released c h1 = h.
Proof.
  intros Hb Hk Hone. eexists _, _. split; [apply ctor_shared_returns|].
  split; [exact (proj1 (shared_copy_counts h buffer id k Hb Hk))|].
  unfold released, BufferChunk.destroy, bind.
  cbn [BufferChunk._managedBuffer BufferChunk._buffer ManagedBuffer.release
       ManagedBuffer.impl ManagedBuffer.null].
  by apply (release_after_copy buffer h id k).
Qed.

Lemma temporary_shared_chunk_is_balanced_witness :
  SharedBuffer.container plain_buffer = Some 1%nat
  /\ containers pooled_heap !! 1%nat = Some (mkContainer 8192 32 1)
  /\ exists (c : BufferChunk.t) (h1 : Heap),
       BufferChunk.ctor_shared plain_buffer pooled_heap = (Returned c, h1)
       /\ released c h1 = pooled_heap.
Proof.
  assert (H1 : SharedBuffer.container plain_buffer = Some 1%nat) by reflexivity.
  assert (H2 : containers pooled_heap !! 1%nat = Some (mkContainer 8192 32 1))
    by (vm_compute; reflexivity).
  split; [exact H1|]. split; [exact H2|].
  destruct (temporary_shared_chunk_is_balanced pooled_heap plain_buffer 1
              (mkContainer 8192 32 1) H1 H2 (le_n 1)) as (c & h1 & Hc & _ & Hr).
  exists c, h1. split; [exact Hc | exact Hr].
Defined.

(** X16: a chunk built from a live managed buffer and destroyed again,
    while the caller still holds the managed buffer, leaves the heap
    exactly as it was: nothing goes back to the pool, nothing is freed,
    both counts return to their values. *)
Theorem temporary_managed_chunk_is_balanced (h : Heap) (buffer : ManagedBuffer.t)
    (i : nat) (r : ManagedImpl) (id : nat) (k : Container) :
  ManagedBuffer.impl buffer = Some i ->
  managed h !! i = Some r ->
  (1 <= mi_refs r)%nat ->
  SharedBuffer.container (mi_buffer r) = Some id ->
  containers h !! id = Some k ->
  (1 <= c_refs k)%nat ->
  exists (c : BufferChunk.t) (h1 : Heap),
    BufferChunk.ctor_managed buffer h = (Returned c, h1)
    /\ managed h1 !! i = Some (mkManagedImpl (mi_buffer r) (S (mi_refs r)) (mi_pool r))
    /\ containers h1 !! id = Some (mkContainer (c_base k) (c_size k) (S (c_refs k)))
    /\ released c h1 = h.
Proof.
  intros Hi Hr Hrone Hb Hk Hkone. eexists _, _.
  split; [apply ctor_managed_returns|].
  rewrite (getBuffer_record h buffer i r Hi Hr).
  destruct (managed_copy_counts h buffer i r id k Hi Hr Hb Hk) as (Hm1 & Hc1 & _).
  split; [exact Hm1|]. split; [exact Hc1|].
  unfold released, BufferChunk.destroy, bind.
  cbn [BufferChunk._managedBuffer BufferChunk._buffer].
  set (h0 := snd (SharedBufferOps.copy (mi_buffer r) h)).
  assert (Hm0 : managed h0 !! i = Some r).
  { unfold h0, SharedBufferOps.copy. by rewrite Hb. }
  assert (E : ManagedBuffer.release buffer (snd (ManagedBuffer.copy buffer h0))
              = (Returned tt, h0)).
  { unfold ManagedBuffer.release, ManagedBuffer.copy. rewrite Hi.
    cbn [snd managed with_managed]. rewrite lookup_alter_eq, Hm0.
    cbn [fmap option_fmap option_map mi_refs mi_buffer mi_pool].
    destruct (mi_refs r) as [|n] eqn:Hn; [lia|]. f_equal.
    unfold with_managed at 1.
    cbn [bytes containers next_container managed pools requests with_managed].
    rewrite insert_alter_eq, <- Hn, managed_impl_eta, (insert_id _ _ _ Hm0).
    by destruct h0. }
  rewrite E. by apply (release_after_copy (mi_buffer r) h id k).
Qed.

Lemma temporary_managed_chunk_is_balanced_witness :
  ManagedBuffer.impl pooled_buffer = Some 0%nat
  /\ managed pooled_heap !! 0%nat = Some pooled_record
  /\ containers pooled_heap !! 0%nat = Some (mkContainer 4096 64 1)
  /\ exists (c : BufferChunk.t) (h1 : Heap),
       BufferChunk.ctor_managed pooled_buffer pooled_heap = (Returned c, h1)
       /\ released c h1 = pooled_heap.
Proof.
  assert (H1 : ManagedBuffer.impl pooled_buffer = Some 0%nat) by reflexivity.
  assert (H2 : managed pooled_heap !! 0%nat = Some pooled_record)
    by (vm_compute; reflexivity).
  assert (H3 : containers pooled_heap !! 0%nat = Some (mkContainer 4096 64 1))
    by (vm_compute; reflexivity).
  split; [exact H1|]. split; [exact H2|]. split; [exact H3|].
  destruct (temporary_managed_chunk_is_balanced pooled_heap pooled_buffer 0
              pooled_record 0 (mkContainer 4096 64 1) H1 H2 (le_n 1) eq_refl H3 (le_n 1))
    as (c & h1 & Hc & _ & _ & Hr).
  exists c, h1. split; [exact Hc | exact Hr].
Defined.

(** X17: [load] has no handler and throws nothing of its own: what leaves
    it is the DataFormatException of a read or the OutOfMemoryException
    of the allocation, and both are caught by a handler for
    Pothos::RuntimeException (and so for Pothos::Exception). *)
Theorem load_throws_runtime_exceptions (place : Allocator)
    (f : Serialization.Frame) (e : ExceptionClass) :
  fst (Serialization.load place f) = Thrown e ->
  (e = DataFormatException \/ e = OutOfMemoryException)
  /\ is_a e RuntimeException = true
  /\ is_a e LogicException = false.
Proof.
  rewrite load_closed_form. unfold load_by_cases.
  assert (HD : forall e, Thrown (A:=unit) DataFormatException = Thrown e ->
            (e = DataFormatException \/ e = OutOfMemoryException)
            /\ is_a e RuntimeException = true /\ is_a e LogicException = false)
    by (intros e' [= <-]; split; [by left|done]).
  assert (HO : forall e, Thrown (A:=unit) OutOfMemoryException = Thrown e ->
            (e = DataFormatException \/ e = OutOfMemoryException)
            /\ is_a e RuntimeException = true /\ is_a e LogicException = false)
    by (intros e' [= <-]; split; [by right|done]).
  destruct (Serialization.ar f) as [|b after_flag]; [apply HD|].
  destruct (Archive.decode_bool b); [discriminate|].
  destruct after_flag as [|b0 [|b1 [|b2 [|b3 rest]]]]; try apply HD.
  cbv zeta.
  destruct (place _ _) as [a|]; [|apply HO].
  destruct (_ <=? _)%nat; [discriminate|apply HD].
Qed.

Lemma load_throws_runtime_exceptions_witness :
  fst (Serialization.load small_place (Serialization.mkFrame [] BufferChunk.ctor empty_heap))
    = Thrown DataFormatException
  /\ is_a DataFormatException RuntimeException = true.
Proof.
  assert (H1 : fst (Serialization.load small_place
                      (Serialization.mkFrame [] BufferChunk.ctor empty_heap))
               = Thrown DataFormatException) by reflexivity.
  split; [exact H1|].
  exact (proj1 (proj2 (load_throws_runtime_exceptions small_place
                         (Serialization.mkFrame [] BufferChunk.ctor empty_heap)
                         DataFormatException H1))).
Defined.

(** X18: the stream determines what it carries: two chunks with lengths
    below 2^32 that serialize to the same bytes are both null or both not,
    and if not they have the same length and the same payload bytes. *)
Theorem serialize_injective (h1 h2 : Heap) (c1 c2 : BufferChunk.t) :
  is_UInt32 (BufferChunk.length c1) ->
  is_UInt32 (BufferChunk.length c2) ->
  Serialization.serialize h1 c1 = Serialization.serialize h2 c2 ->
  BufferChunk.null c1 = BufferChunk.null c2
  /\ (BufferChunk.null c1 = true
      \/ (BufferChunk.length c1 = BufferChunk.length c2
          /\ payload h1 (BufferChunk.address c1) (BufferChunk.length c1)
             = payload h2 (BufferChunk.address c2) (BufferChunk.length c2))).
Proof.
  intros Hl1 Hl2 Heq.
  destruct (BufferChunk.null c1) eqn:Hn1, (BufferChunk.null c2) eqn:Hn2.
  - split; [reflexivity|by left].
  - rewrite (serialize_null _ _ Hn1), (serialize_not_null _ _ Hn2) in Heq. discriminate Heq.
  - rewrite (serialize_not_null _ _ Hn1), (serialize_null _ _ Hn2) in Heq. discriminate Heq.
  - split; [reflexivity|]. right.
    pose proof (f_equal length_field Heq) as Hf.
    rewrite !length_field_serialize, !to_UInt32_small in Hf by done.
    injection Hf as Hlen. split; [exact Hlen|].
    rewrite (serialize_not_null _ _ Hn1), (serialize_not_null _ _ Hn2), Hlen in Heq.
    injection Heq as Heq. by rewrite Hlen.
Qed.

Lemma serialize_injective_witness :
  chunk16 <> chunk16b
  /\ is_UInt32 (BufferChunk.length chunk16)
  /\ is_UInt32 (BufferChunk.length chunk16b)
  /\ Serialization.serialize heap16 chunk16 = Serialization.serialize heap16b chunk16b
  /\ BufferChunk.null chunk16 = BufferChunk.null chunk16b
  /\ (BufferChunk.null chunk16 = true
      \/ (BufferChunk.length chunk16 = BufferChunk.length chunk16b
          /\ payload heap16 (BufferChunk.address chunk16) (BufferChunk.length chunk16)
             = payload heap16b (BufferChunk.address chunk16b)
                 (BufferChunk.length chunk16b))).
Proof.
  assert (H0 : chunk16 <> chunk16b) by discriminate.
  assert (H1 : is_UInt32 (BufferChunk.length chunk16)) by (vm_compute; split; congruence).
  assert (H2 : is_UInt32 (BufferChunk.length chunk16b)) by (vm_compute; split; congruence).
  assert (H3 : Serialization.serialize heap16 chunk16
               = Serialization.serialize heap16b chunk16b) by (vm_compute; reflexivity).
  split; [exact H0|]. split; [exact H1|]. split; [exact H2|]. split; [exact H3|].
  exact (serialize_injective heap16 heap16b chunk16 chunk16b H1 H2 H3).
Defined.

(** X19: an empty chunk is not the null chunk on the wire: a chunk of
    length 0 at a nonzero address serializes to the clear flag and a zero
    length, five bytes in all, and deserializes to a chunk of length 0
    that owns a new allocation of 0 bytes, asked of the allocator as
    such; it is null only if the allocator handed out address 0. *)
Theorem empty_chunk_is_not_null_on_the_wire (place : Allocator) (h g : Heap)
    (c : BufferChunk.t) (a : Z) :
  BufferChunk.null c = false ->
  BufferChunk.length c = 0 ->
  place g 0 = Some a ->
  Serialization.serialize h c = [x00; x00; x00; x00; x00]
  /\ Serialization.serialize h c <> Serialization.serialize h BufferChunk.ctor
  /\ exists (c' : BufferChunk.t) (g' : Heap),
       Serialization.deserialize place (Serialization.serialize h c) g = (Returned c', g')
       /\ BufferChunk.length c' = 0
       /\ BufferChunk.owns c' = true
       /\ BufferChunk.null c' = (a =? 0)
       /\ containers g' !! next_container g = Some (mkContainer a 0 1)
       /\ requests g' = 0 :: requests g.
Proof.
  intros Hn Hl Hp.
  assert (Hs : Serialization.serialize h c = [x00; x00; x00; x00; x00])
    by (rewrite (serialize_not_null _ _ Hn), Hl; reflexivity).
  split; [exact Hs|]. split; [rewrite Hs; discriminate|].
  rewrite Hs.
  exists (sized_chunk g a 0), (loaded_heap g a 0 []).
  split.
  - by rewrite (deserialize_placed place g x00 x00 x00 x00 x00 [] eq_refl a Hp (le_n 0)).
  - split; [reflexivity|]. split; [reflexivity|]. split; [reflexivity|].
    split; [apply lookup_insert_eq|reflexivity].
Qed.

Lemma empty_chunk_is_not_null_on_the_wire_witness :
  BufferChunk.null (sized_chunk empty_heap 4096 0) = false
  /\ BufferChunk.length (sized_chunk empty_heap 4096 0) = 0
  /\ small_place (allocated_heap empty_heap 4096 0) 0 = Some 4160
  /\ Serialization.serialize (allocated_heap empty_heap 4096 0)
       (sized_chunk empty_heap 4096 0) = [x00; x00; x00; x00; x00].
Proof.
  assert (H1 : BufferChunk.null (sized_chunk empty_heap 4096 0) = false) by reflexivity.
  assert (H2 : BufferChunk.length (sized_chunk empty_heap 4096 0) = 0) by reflexivity.
  assert (H3 : small_place (allocated_heap empty_heap 4096 0) 0 = Some 4160) by reflexivity.
  split; [exact H1|]. split; [exact H2|]. split; [exact H3|].
  exact (proj1 (empty_chunk_is_not_null_on_the_wire small_place
                  (allocated_heap empty_heap 4096 0) (allocated_heap empty_heap 4096 0)
                  (sized_chunk empty_heap 4096 0) 4160 H1 H2 H3)).
Defined.
